(** * gpt5_mcp: the request/response pipeline, embedded and verified

    Shallow embedding of [src/types.ts], of [MessageProcessor]
    (message-processor.ts) and of [GPT5Client] (gpt5-client.ts).

    Conventions of the embedding.
    - A JavaScript string is the list of its UTF-16 code units ([list N]);
      [.length] is the number of code units.
    - A JavaScript number is a rational, an infinity or NaN ([number]); the
      two zeros of IEEE-754 are identified (both are falsy and compare equal).
    - A JavaScript object is a finite map from property names to values.
    - The values are the ones a tool call can carry: JSON values, and
      [undefined] for what is missing.
    - [throw] is the left injection of a sum; a function that cannot throw
      returns its value directly. An [async] function is modelled by the
      outcome of its promise: fulfilled is a return, rejected is a throw.
    - An object that the code updates in place and returns is modelled by
      the updated record.
    - [console.log/warn/error] only write to the terminal and are left out.
    - [Date.now()] and the upstream HTTP call are explicit inputs. *)

From Stdlib Require Import ZArith NArith QArith Qcanon List Bool Lia.
From stdpp Require Import gmap strings list.

Set Default Proof Using "Type".
Set Warnings "-register-all".

Open Scope Z_scope.

(** ** JavaScript values and built-ins used by the program *)

Module JS.

Abbreviation jsstring := (list N).

(** [js "abc"] is the JavaScript string literal ['abc'] (ASCII only). *)
Definition js (s : string) : jsstring :=
  map (fun a => N.of_nat (Ascii.nat_of_ascii a)) (String.list_ascii_of_string s).

Definition LF : N := 10%N.

(** [s.length] *)
Definition strlen (s : jsstring) : Z := Z.of_nat (length s).

(** WhiteSpace and LineTerminator code points of ECMAScript, the ones
    [String.prototype.trim] strips. *)
Definition isWhiteSpace (c : N) : bool :=
  ((9 <=? c) && (c <=? 13) || (c =? 32) || (c =? 160) || (c =? 5760)
   || (8192 <=? c) && (c <=? 8202) || (c =? 8232) || (c =? 8233)
   || (c =? 8239) || (c =? 8287) || (c =? 12288) || (c =? 65279))%N.

Fixpoint trimStart (s : jsstring) : jsstring :=
  match s with
  | c :: tl => if isWhiteSpace c then trimStart tl else s
  | [] => []
  end.

Definition trimEnd (s : jsstring) : jsstring := rev (trimStart (rev s)).

(** [s.trim()] *)
Definition trim (s : jsstring) : jsstring := trimEnd (trimStart s).

(** [s.substring(start, finish)] for integer arguments: both are clamped
    to [0, s.length] and swapped when out of order. *)
Definition substring (s : jsstring) (start finish : Z) : jsstring :=
  let len := strlen s in
  let a := Z.min (Z.max start 0) len in
  let b := Z.min (Z.max finish 0) len in
  let from := Z.min a b in
  let to := Z.max a b in
  take (Z.to_nat (to - from)) (drop (Z.to_nat from) s).

(** [s.startsWith(p)] *)
Fixpoint startsWith (p s : jsstring) : bool :=
  match p, s with
  | [], _ => true
  | _ :: _, [] => false
  | a :: p', b :: s' => (a =? b)%N && startsWith p' s'
  end.

(** [s.endsWith(p)] *)
Definition endsWith (p s : jsstring) : bool := startsWith (rev p) (rev s).

(** [s.includes(p)] *)
Fixpoint includes (p s : jsstring) : bool :=
  startsWith p s || match s with [] => false | _ :: tl => includes p tl end.

(** Numbers. *)
Inductive number := NaN | PosInf | NegInf | Fin (q : Qc).

Definition ofZ (z : Z) : number := Fin (Q2Qc (inject_Z z)).

Definition isNaN (x : number) : bool :=
  match x with NaN => true | _ => false end.

(** [x <= y]; false as soon as one side is NaN *)
Definition num_le (x y : number) : bool :=
  match x, y with
  | NaN, _ | _, NaN => false
  | NegInf, _ | _, PosInf => true
  | _, NegInf | PosInf, _ => false
  | Fin p, Fin q => bool_decide (p <= q)%Qc
  end.

Definition num_lt (x y : number) : bool :=
  negb (isNaN x) && negb (isNaN y) && negb (num_le y x).

(** [Math.max(x, y)] and [Math.min(x, y)] *)
Definition Math_max (x y : number) : number :=
  if isNaN x || isNaN y then NaN else if num_le x y then y else x.

Definition Math_min (x y : number) : number :=
  if isNaN x || isNaN y then NaN else if num_le x y then x else y.

(** [Math.ceil(n / 4)] and the like, on integers *)
Definition ceil_div (n d : Z) : Z := - ((- n) / d).

Inductive JsVal :=
| JUndefined
| JNull
| JBoolean (b : bool)
| JNumber (n : number)
| JString (s : jsstring)
| JArray (items : list JsVal)
| JObject (props : gmap string JsVal).

Inductive JsType := TUndefined | TObject | TBoolean | TNumber | TString.

(** [typeof v] *)
Definition typeof (v : JsVal) : JsType :=
  match v with
  | JUndefined => TUndefined
  | JNull | JArray _ | JObject _ => TObject
  | JBoolean _ => TBoolean
  | JNumber _ => TNumber
  | JString _ => TString
  end.

Definition JsType_eqb (a b : JsType) : bool :=
  match a, b with
  | TUndefined, TUndefined | TObject, TObject | TBoolean, TBoolean
  | TNumber, TNumber | TString, TString => true
  | _, _ => false
  end.

Definition num_truthy (x : number) : bool :=
  match x with
  | NaN => false
  | Fin q => negb (bool_decide (q = Q2Qc 0))
  | _ => true
  end.

Definition str_truthy (s : jsstring) : bool :=
  match s with [] => false | _ => true end.

(** ToBoolean *)
Definition truthy (v : JsVal) : bool :=
  match v with
  | JUndefined | JNull => false
  | JBoolean b => b
  | JNumber n => num_truthy n
  | JString s => str_truthy s
  | JArray _ | JObject _ => true
  end.

(** [v.k] for a name [k] that is not an array index or [length]; only
    evaluated on values that passed the object test. *)
Definition get (v : JsVal) (k : string) : JsVal :=
  match v with
  | JObject props => default JUndefined (props !! k)
  | _ => JUndefined
  end.

(** [a || b] *)
Definition or_else (a b : JsVal) : JsVal := if truthy a then a else b.

End JS.

Import JS.

(** ** src/types.ts *)

Record GPT5QueryRequest := mkRequest {
  prompt : jsstring;
  context : option jsstring;
  model : JsVal;
  verbosity : JsVal;
  reasoning_effort : JsVal;
  max_tokens : option number;
  temperature : option number
}.

Record Usage := mkUsage {
  prompt_tokens : number;
  completion_tokens : number;
  total_tokens : number
}.

Record OpenAIResponse := mkOpenAIResponse {
  output_text : jsstring;
  usage : Usage;
  model_fingerprint : jsstring;
  created : number
}.

Record Metadata := mkMetadata {
  md_model : JsVal;
  tokens_used : number;
  reasoning_time : option number;
  md_model_fingerprint : jsstring;
  timestamp : number
}.

Record GPT5QueryResponse := mkResponse {
  content : jsstring;
  metadata : Metadata
}.

Record OpenAIConfig := mkOpenAIConfig {
  apiKey : option jsstring;
  baseURL : option jsstring;
  defaultModel : jsstring;
  timeout : number
}.

Record ServerInfo := mkServerInfo {
  name : jsstring;
  version : jsstring;
  maxRetries : number;
  retryDelay : number
}.

Inductive LogLevel := debug | info | warn | error.

Record LoggingConfig := mkLoggingConfig {
  level : LogLevel;
  logRequests : bool;
  logResponses : bool
}.

Record ServerConfig := mkServerConfig {
  openai : OpenAIConfig;
  server : ServerInfo;
  logging : LoggingConfig
}.

(** Thrown errors: [Error], the SDK's [OpenAI.APIError] and the program's
    own [GPT5ClientError] (message, statusCode, originalError). *)
Inductive JsError :=
| Error (message : jsstring)
| APIError (message : jsstring) (status : option number)
| GPT5ClientError (message : jsstring) (statusCode : option number)
                  (originalError : option JsError).

(** Anything can be thrown in JavaScript. *)
Inductive Thrown :=
| ThrowError (e : JsError)
| ThrowValue (v : JsVal).

Definition error_message (e : JsError) : jsstring :=
  match e with
  | Error m | APIError m _ | GPT5ClientError m _ _ => m
  end.

(** ** Exceptions

    A computation that may throw returns [inl thrown] or [inr value]. *)

Definition Result (A : Type) : Type := (Thrown + A)%type.

Definition ret {A} (a : A) : Result A := inr a.
Definition throw {A} (e : JsError) : Result A := inl (ThrowError e).

Definition bind {A B} (m : Result A) (k : A -> Result B) : Result B :=
  match m with
  | inl t => inl t
  | inr a => k a
  end.

(** [try { body } catch (error) { handler }] *)
Definition try_catch {A} (body : Result A) (handler : Thrown -> Result A)
  : Result A :=
  match body with
  | inl t => handler t
  | inr a => inr a
  end.

Notation "'let!' x := m 'in' k" := (bind m (fun x => k))
  (at level 10, x name, m at level 100, k at level 200).

(** ** MessageProcessor *)

Module MessageProcessor.

Definition isNul (c : N) : bool := (c =? 0)%N.

(** the class [[\x01-\x1F\x7F]] *)
Definition isControl (c : N) : bool :=
  ((1 <=? c) && (c <=? 31) || (c =? 127))%N.

Definition sanitizeText (text : jsstring) : jsstring :=
  substring
    (List.filter (fun c => negb (isControl c))
       (List.filter (fun c => negb (isNul c)) (trim text)))
    0 100000.

Definition estimateTokens (text : jsstring) : Z :=
  ceil_div (strlen text) 4.

(** the literal appended to a field that was cut *)
Definition marker : jsstring := js "...[truncated]".

Definition truncateIfNeeded (request : GPT5QueryRequest) : GPT5QueryRequest :=
  let maxPromptTokens := 380000 in
  let estimatedTokens :=
    estimateTokens (prompt request ++ default [] (context request)) in
  if estimatedTokens >? maxPromptTokens then
    let maxChars := maxPromptTokens * 4 in
    let totalLength :=
      strlen (prompt request) + from_option strlen 0 (context request) in
    let request1 :=
      match context request with
      | Some ctx =>
          if str_truthy ctx && (totalLength >? maxChars) then
            let contextLimit := Z.max 0 (maxChars - strlen (prompt request)) in
            mkRequest (prompt request)
              (Some (substring ctx 0 contextLimit ++ marker))
              (model request) (verbosity request) (reasoning_effort request)
              (max_tokens request) (temperature request)
          else request
      | None => request
      end in
    if strlen (prompt request1) >? maxChars then
      mkRequest (substring (prompt request1) 0 (maxChars - 100) ++ marker)
        (context request1)
        (model request1) (verbosity request1) (reasoning_effort request1)
        (max_tokens request1) (temperature request1)
    else request1
  else request.

(** Projections used after a [typeof] test has succeeded. *)
Definition the_string (v : JsVal) : jsstring :=
  match v with JString s => s | _ => [] end.

Definition the_number (v : JsVal) : number :=
  match v with JNumber n => n | _ => NaN end.

Definition is_undefined (v : JsVal) : bool :=
  match v with JUndefined => true | _ => false end.

Definition set_context (r : GPT5QueryRequest) (c : jsstring) :=
  mkRequest (prompt r) (Some c) (model r) (verbosity r) (reasoning_effort r)
    (max_tokens r) (temperature r).

Definition set_max_tokens (r : GPT5QueryRequest) (n : number) :=
  mkRequest (prompt r) (context r) (model r) (verbosity r) (reasoning_effort r)
    (Some n) (temperature r).

Definition set_temperature (r : GPT5QueryRequest) (n : number) :=
  mkRequest (prompt r) (context r) (model r) (verbosity r) (reasoning_effort r)
    (max_tokens r) (Some n).

(** The body of [validateRequest] below its two tests: "Sanitize and set
    defaults", then "Optional fields". *)
Definition buildRequest (config : ServerConfig) (rawRequest : JsVal)
  : GPT5QueryRequest :=
  let request :=
    mkRequest
      (sanitizeText (the_string (get rawRequest "prompt")))
      None
      (or_else (get rawRequest "model") (JString (defaultModel (openai config))))
      (or_else (get rawRequest "verbosity") (JString (js "medium")))
      (or_else (get rawRequest "reasoning_effort") (JString (js "standard")))
      None None in
  let request :=
    if truthy (get rawRequest "context")
       && JsType_eqb (typeof (get rawRequest "context")) TString
    then set_context request
           (sanitizeText (the_string (get rawRequest "context")))
    else request in
  let request :=
    if truthy (get rawRequest "max_tokens")
       && JsType_eqb (typeof (get rawRequest "max_tokens")) TNumber
    then set_max_tokens request
           (Math_min
              (Math_max (the_number (get rawRequest "max_tokens")) (ofZ 1))
              (ofZ 128000))
    else request in
  let request :=
    if negb (is_undefined (get rawRequest "temperature"))
       && JsType_eqb (typeof (get rawRequest "temperature")) TNumber
    then set_temperature request
           (Math_min
              (Math_max (the_number (get rawRequest "temperature")) (ofZ 0))
              (ofZ 2))
    else request in
  request.

Definition validateRequest (config : ServerConfig) (rawRequest : JsVal)
  : Result GPT5QueryRequest :=
  if negb (truthy rawRequest) || negb (JsType_eqb (typeof rawRequest) TObject)
  then throw (Error (js "Invalid request: must be an object"))
  else
  if negb (truthy (get rawRequest "prompt"))
     || negb (JsType_eqb (typeof (get rawRequest "prompt")) TString)
  then throw
         (Error (js "Invalid request: prompt is required and must be a string"))
  else ret (buildRequest config rawRequest).

(** *** Response formatting

    [String.prototype.toLowerCase] follows the Unicode case tables of the
    host; it is an input of the formatter. *)
Section Formatter.

Variable toLowerCase : jsstring -> jsstring.

Definition codeIndicators : list jsstring :=
  [ js "```"; js "function "; js "class "; js "import "; js "const ";
    js "let "; js "var "; js "def "; js "public "; js "private ";
    js "#include"; js "SELECT "; js "FROM " ].

Definition containsCode (content : jsstring) : bool :=
  existsb
    (fun indicator => includes (toLowerCase indicator) (toLowerCase content))
    codeIndicators.

(** number of matches of [/```/g]: scanned left to right, a match
    consumes its three code units ([skip] counts the ones still to
    consume) *)
Fixpoint countFences (skip : nat) (s : jsstring) : nat :=
  match s with
  | [] => 0%nat
  | _ :: tl =>
      match skip with
      | S k => countFences k tl
      | O => if startsWith (js "```") s
             then S (countFences 2 tl)
             else countFences 0 tl
      end
  end.

(** the class [[\w-]] *)
Definition isWordOrDash (c : N) : bool :=
  ((48 <=? c) && (c <=? 57) || (65 <=? c) && (c <=? 90)
   || (97 <=? c) && (c <=? 122) || (c =? 95) || (c =? 45))%N.

Fixpoint skipWord (s : jsstring) : jsstring :=
  match s with
  | c :: tl => if isWordOrDash c then skipWord tl else s
  | [] => []
  end.

(** does [[\w-]+\n] match at the start of [s]? *)
Definition languageTagAhead (s : jsstring) : bool :=
  match s with
  | c :: tl =>
      isWordOrDash c
      && match skipWord tl with c' :: _ => (c' =? LF)%N | [] => false end
  | [] => false
  end.

(** [s.replace(/```\n(?![\w-]+\n)/g, '```text\n')] *)
Fixpoint tagFences (skip : nat) (s : jsstring) : jsstring :=
  match s with
  | [] => []
  | c :: tl =>
      match skip with
      | S k => tagFences k tl
      | O =>
          if startsWith (js "```" ++ [LF]) s
             && negb (languageTagAhead (drop 4 s))
          then js "```text" ++ [LF] ++ tagFences 3 tl
          else c :: tagFences 0 tl
      end
  end.

Definition formatCodeBlocks (content : jsstring) : jsstring :=
  let formatted := content in
  let codeBlockCount := countFences 0 formatted in
  let formatted :=
    if negb (Nat.eqb (codeBlockCount mod 2) 0)
    then formatted ++ [LF] ++ js "```"
    else formatted in
  tagFences 0 formatted.

(** [s.replace(/\n\n\n+/g, '\n\n')]: of every run of line feeds at
    most two are kept ([run] is the length of the run read so far) *)
Fixpoint collapseBlankLines (run : nat) (s : jsstring) : jsstring :=
  match s with
  | [] => []
  | c :: tl =>
      if (c =? LF)%N
      then if (run <? 2)%nat
           then c :: collapseBlankLines (S run) tl
           else collapseBlankLines run tl
      else c :: collapseBlankLines 0 tl
  end.

Definition placeholder : jsstring := js "No response generated.".

(** the header: U+1F916 (a surrogate pair), the title, two line feeds *)
Definition header : jsstring :=
  [55358; 56598]%N ++ js " **GPT-5 Response**" ++ [LF; LF].

Definition formatResponseContent (content : jsstring) : jsstring :=
  if negb (str_truthy content) then placeholder
  else
    let formatted := trim content in
    let formatted :=
      if containsCode formatted then formatCodeBlocks formatted
      else formatted in
    let formatted := collapseBlankLines 0 formatted in
    header ++ formatted.

(** [now] is the value of [Date.now()] *)
Definition formatResponse (openaiResponse : OpenAIResponse)
    (originalRequest : GPT5QueryRequest) (processingTimeMs : number)
    (now : number) : GPT5QueryResponse :=
  let content := formatResponseContent (output_text openaiResponse) in
  mkResponse content
    (mkMetadata (model originalRequest)
       (total_tokens (usage openaiResponse))
       (Some processingTimeMs)
       (model_fingerprint openaiResponse)
       now).

End Formatter.

(** U+274C, then the message *)
Definition createErrorResponse (error : JsError) (originalRequest : JsVal)
    (now : number) : GPT5QueryResponse :=
  let errorMessage :=
    [10060%N] ++ js " **Error**: " ++ error_message error ++ [LF; LF]
    ++ js "Please check your OpenAI API key and try again." in
  mkResponse errorMessage
    (mkMetadata (or_else (get originalRequest "model") (JString (js "gpt-5")))
       (ofZ 0) (Some (ofZ 0)) (js "error") now).

End MessageProcessor.

Import MessageProcessor.

(** ** GPT5Client *)

Module GPT5Client.

Inductive Role := user | assistant | system.

Record InputMessage := mkInputMessage {
  role : Role;
  msg_content : jsstring
}.

Record OpenAIRequest := mkOpenAIRequest {
  req_model : JsVal;
  input : list InputMessage;
  max_output_tokens : option number;
  req_verbosity : JsVal;
  req_reasoning_effort : JsVal;
  req_temperature : option number
}.

(** the argument of [chat.completions.create] *)
Record ChatParams := mkChatParams {
  cp_model : JsVal;
  cp_messages : list InputMessage;
  cp_max_tokens : option number;
  cp_temperature : option number
}.

(** the SDK's chat completion, as far as the client reads it; every part
    the client reaches through [?.] or defaults with [||] is optional *)
Record ChatMessage := mkChatMessage { cm_content : option jsstring }.
Record Choice := mkChoice { message : option ChatMessage }.
Record CompletionUsage := mkCompletionUsage {
  cu_prompt_tokens : option number;
  cu_completion_tokens : option number;
  cu_total_tokens : option number
}.
Record ChatCompletion := mkChatCompletion {
  choices : option (list Choice);
  cc_usage : option CompletionUsage;
  system_fingerprint : option jsstring;
  cc_created : option number
}.

(** the SDK client built by [new OpenAI({apiKey, baseURL, timeout})] *)
Record OpenAI := mkOpenAI {
  sdk_apiKey : jsstring;
  sdk_baseURL : option jsstring;
  sdk_timeout : number
}.

Record t := mkClient {
  openai_sdk : OpenAI;
  config : ServerConfig
}.

(** [a || d] on an optional string and on an optional number *)
Definition str_or (a : option jsstring) (d : jsstring) : jsstring :=
  match a with
  | Some s => if str_truthy s then s else d
  | None => d
  end.

Definition num_or (a : option number) (d : number) : number :=
  match a with
  | Some n => if num_truthy n then n else d
  | None => d
  end.

Definition constructor (config : ServerConfig) : Result t :=
  if negb (from_option str_truthy false (apiKey (openai config)))
  then throw (GPT5ClientError (js "OpenAI API key is required") None None)
  else
    ret (mkClient
           (mkOpenAI (default [] (apiKey (openai config)))
              (baseURL (openai config)) (timeout (openai config)))
           config).

Definition formatRequest (request : GPT5QueryRequest) : OpenAIRequest :=
  let messages :=
    [ mkInputMessage user
        (match context request with
         | Some ctx =>
             if str_truthy ctx
             then js "Context: " ++ ctx ++ [LF; LF] ++ js "Request: "
                  ++ prompt request
             else prompt request
         | None => prompt request
         end) ] in
  let openaiRequest :=
    mkOpenAIRequest (model request) messages None
      (verbosity request) (reasoning_effort request) None in
  let openaiRequest :=
    match max_tokens request with
    | Some n =>
        if num_truthy n
        then mkOpenAIRequest (req_model openaiRequest) (input openaiRequest)
               (Some n) (req_verbosity openaiRequest)
               (req_reasoning_effort openaiRequest)
               (req_temperature openaiRequest)
        else openaiRequest
    | None => openaiRequest
    end in
  match temperature request with
  | Some x =>
      mkOpenAIRequest (req_model openaiRequest) (input openaiRequest)
        (max_output_tokens openaiRequest) (req_verbosity openaiRequest)
        (req_reasoning_effort openaiRequest) (Some x)
  | None => openaiRequest
  end.

Section Upstream.

(** [this.openai.chat.completions.create]: the upstream call either
    resolves to a completion or rejects with whatever it throws *)
Variable create : OpenAI -> ChatParams -> Result ChatCompletion.

(** [startTime] is the value of [Date.now()] before the call *)
Definition query (client : t) (startTime : Z) (request : GPT5QueryRequest)
  : Result OpenAIResponse :=
  try_catch
    (let openaiRequest := formatRequest request in
     let! response :=
       create (openai_sdk client)
         (mkChatParams (req_model openaiRequest) (input openaiRequest)
            (max_output_tokens openaiRequest)
            (req_temperature openaiRequest)) in
     let formattedResponse :=
       mkOpenAIResponse
         (str_or
            (c ← head (default [] (choices response));
             m ← message c;
             cm_content m)
            [])
         (mkUsage
            (num_or (u ← cc_usage response; cu_prompt_tokens u) (ofZ 0))
            (num_or (u ← cc_usage response; cu_completion_tokens u) (ofZ 0))
            (num_or (u ← cc_usage response; cu_total_tokens u) (ofZ 0)))
         (str_or (system_fingerprint response) [])
         (num_or (cc_created response) (ofZ (startTime / 1000))) in
     ret formattedResponse)
    (fun error =>
       match error with
       | ThrowError (APIError m st as e) =>
           throw (GPT5ClientError (js "OpenAI API Error: " ++ m) st (Some e))
       | ThrowError e =>
           throw (GPT5ClientError
                    (js "Unexpected error: " ++ error_message e)
                    None (Some e))
       | ThrowValue _ =>
           throw (GPT5ClientError (js "Unexpected error: Unknown error")
                    None None)
       end).

Definition testRequest : GPT5QueryRequest :=
  mkRequest (js "Hello, this is a connection test.") None
    (JString (js "gpt-5-nano")) (JString (js "low"))
    (JString (js "minimal")) (Some (ofZ 10)) None.

Definition testConnection (client : t) (startTime : Z) : Result bool :=
  try_catch
    (let! _ := query client startTime testRequest in
     ret true)
    (fun error => ret false).

Definition getAvailableModels : list jsstring :=
  [ js "gpt-5"; js "gpt-5-mini"; js "gpt-5-nano" ].

End Upstream.

End GPT5Client.

(** ** config.ts *)

Module Config.

(** What [loadConfiguration] throws. *)
Inductive ConfigurationError := mkConfigurationError (message : jsstring).

Definition Checked (A : Type) : Type := (ConfigurationError + A)%type.

(** What can be thrown inside the [try] of [loadConfiguration]: the
    program's own error, or the [TypeError] of the engine when a property
    of [undefined] or [null] is read. Both are instances of [Error] and
    have a message. *)
Inductive Raised :=
| RaisedConfigurationError (e : ConfigurationError)
| RaisedTypeError (message : jsstring).

(** [error.message] *)
Definition raised_message (r : Raised) : jsstring :=
  match r with
  | RaisedConfigurationError (mkConfigurationError message) => message
  | RaisedTypeError message => message
  end.

Definition Attempt (A : Type) : Type := (Raised + A)%type.

Definition and_then {A B} (m : Attempt A) (k : A -> Attempt B) : Attempt B :=
  match m with
  | inl r => inl r
  | inr a => k a
  end.

Notation "'let?' x := m 'in' k" := (and_then m (fun x => k))
  (at level 10, x name, m at level 100, k at level 200).

Definition checked {A} (m : Checked A) : Attempt A :=
  match m with
  | inl e => inl (RaisedConfigurationError e)
  | inr a => inr a
  end.

(** The configuration object as it exists at run time. The default model,
    the server name, the version and the log level can come from
    config/default.json, which is used as parsed: they hold whatever
    JSON value the file has there. The key and the base URL are strings
    of the environment, the numbers are results of [parseInt] and the two
    flags are results of [===]. *)
Record LoadedConfig := mkLoadedConfig {
  lc_apiKey : jsstring;
  lc_baseURL : option jsstring;
  lc_defaultModel : JsVal;
  lc_timeout : number;
  lc_name : JsVal;
  lc_version : JsVal;
  lc_maxRetries : number;
  lc_retryDelay : number;
  lc_level : JsVal;
  lc_logRequests : bool;
  lc_logResponses : bool
}.

(** [a.join(sep)] on an array of strings *)
Fixpoint join (sep : jsstring) (a : list jsstring) : jsstring :=
  match a with
  | [] => []
  | [x] => x
  | x :: rest => x ++ sep ++ join sep rest
  end.

(** [a.includes(x)] on an array of strings: the comparison is
    SameValueZero, so only a string can be found. *)
Definition array_includes (a : list jsstring) (x : JsVal) : bool :=
  match x with
  | JString s => existsb (fun y => bool_decide (y = s)) a
  | _ => false
  end.

Definition validLogLevels : list jsstring :=
  [ js "debug"; js "info"; js "warn"; js "error" ].

Definition validateConfiguration (config : LoadedConfig) : Checked unit :=
  if negb (str_truthy (lc_apiKey config))
  then inl (mkConfigurationError (js "OpenAI API key is required"))
  else if negb (startsWith (js "sk-") (lc_apiKey config))
  then inl (mkConfigurationError
              (js "OpenAI API key appears to be invalid (should start with "
               ++ [34%N] ++ js "sk-" ++ [34%N] ++ js ")"))
  else if num_lt (lc_timeout config) (ofZ 1000)
  then inl (mkConfigurationError (js "OpenAI timeout must be at least 1000ms"))
  else if negb (truthy (lc_name config))
  then inl (mkConfigurationError (js "Server name is required"))
  else if negb (truthy (lc_version config))
  then inl (mkConfigurationError (js "Server version is required"))
  else if num_lt (lc_maxRetries config) (ofZ 0)
          || num_lt (ofZ 10) (lc_maxRetries config)
  then inl (mkConfigurationError (js "Max retries must be between 0 and 10"))
  else if num_lt (lc_retryDelay config) (ofZ 100)
  then inl (mkConfigurationError (js "Retry delay must be at least 100ms"))
  else if negb (array_includes validLogLevels (lc_level config))
  then inl (mkConfigurationError
              (js "Log level must be one of: " ++ join (js ", ") validLogLevels))
  else inr tt.

(** the defaults used when config/default.json cannot be read *)
Definition hardcodedDefaults : JsVal :=
  JObject
    {[ "openai" :=
         JObject {[ "apiKey" := JString [];
                    "baseURL" := JUndefined;
                    "defaultModel" := JString (js "gpt-5");
                    "timeout" := JNumber (ofZ 60000) ]};
       "server" :=
         JObject {[ "name" := JString (js "gpt5-claude-mcp");
                    "version" := JString (js "1.0.0");
                    "maxRetries" := JNumber (ofZ 3);
                    "retryDelay" := JNumber (ofZ 1000) ]};
       "logging" :=
         JObject {[ "level" := JString (js "info");
                    "logRequests" := JBoolean false;
                    "logResponses" := JBoolean false ]} ]}.

(** [undefined] and [null], the values no property can be read of *)
Definition nullish (v : JsVal) : bool :=
  match v with
  | JUndefined | JNull => true
  | _ => false
  end.

Section Load.

(** [parseInt] without a radix, a function of the host. *)
Variable parseInt : jsstring -> number.

(** The message of the [TypeError] that the engine throws when the
    property [k] of [base], which is [undefined] or [null], is read. *)
Variable cannotRead : JsVal -> string -> jsstring.

(** [process.env] *)
Variable env : gmap string jsstring.

(** What [JSON.parse] returns for the text of config/default.json, any
    JSON value, or nothing when reading the file or parsing it throws. *)
Variable defaultsFile : option JsVal.

Definition loadDefaultConfig : JsVal :=
  match defaultsFile with
  | Some parsed => parsed
  | None => hardcodedDefaults
  end.

Definition getRequiredEnvVar (name : string) : Checked jsstring :=
  let value := env !! name in
  if negb (from_option str_truthy false value)
  then inl (mkConfigurationError
              (js "Required environment variable " ++ js name
               ++ js " is not set. "
               ++ js "Please set it in your environment or .env file."))
  else inr (default [] value).

(** [base.k], for the names read here, none of which is a property of a
    string, a number, a boolean or an array *)
Definition member (base : JsVal) (k : string) : Attempt JsVal :=
  if nullish base
  then inl (RaisedTypeError (cannotRead base k))
  else inr (get base k).

(** [defaultConfig.section.field] *)
Definition default_of (defaultConfig : JsVal) (section field : string)
  : Attempt JsVal :=
  let? part := member defaultConfig section in
  member part field.

(** [process.env.NAME || fallback] with a string on the right *)
Definition env_or (name : string) (fallback : jsstring) : jsstring :=
  match env !! name with
  | Some value => if str_truthy value then value else fallback
  | None => fallback
  end.

(** [process.env.NAME || fallback] with an expression on the right, which
    is evaluated only when the variable is missing or empty *)
Definition env_or_else (name : string) (fallback : Attempt JsVal)
  : Attempt JsVal :=
  match env !! name with
  | Some value => if str_truthy value then inr (JString value) else fallback
  | None => fallback
  end.

Definition loadConfiguration : Checked LoadedConfig :=
  match
    (let defaultConfig := loadDefaultConfig in
     let? apiKey := checked (getRequiredEnvVar "OPENAI_API_KEY") in
     let baseURL := env !! "OPENAI_BASE_URL" in
     let? defaultModel :=
       env_or_else "GPT5_DEFAULT_MODEL"
         (default_of defaultConfig "openai" "defaultModel") in
     let timeout := parseInt (env_or "OPENAI_TIMEOUT" (js "60000")) in
     let? name :=
       env_or_else "SERVER_NAME" (default_of defaultConfig "server" "name") in
     let? version := default_of defaultConfig "server" "version" in
     let maxRetries := parseInt (env_or "MAX_RETRIES" (js "3")) in
     let retryDelay := parseInt (env_or "RETRY_DELAY" (js "1000")) in
     let? level :=
       env_or_else "LOG_LEVEL" (default_of defaultConfig "logging" "level") in
     let logRequests := bool_decide (env !! "LOG_REQUESTS" = Some (js "true")) in
     let logResponses :=
       bool_decide (env !! "LOG_RESPONSES" = Some (js "true")) in
     let serverConfig :=
       mkLoadedConfig apiKey baseURL defaultModel timeout name version
         maxRetries retryDelay level logRequests logResponses in
     let? _ := checked (validateConfiguration serverConfig) in
     inr serverConfig)
  with
  | inl thrown =>
      inl (mkConfigurationError
             (js "Failed to load configuration: " ++ raised_message thrown))
  | inr serverConfig => inr serverConfig
  end.

End Load.

End Config.

(** ** server.ts *)

Module Server.

(** What a tool call answers: one text block and, where the code sets it,
    the [isError] flag. *)
Record ToolResult := mkToolResult {
  text : jsstring;
  isError : option bool
}.

(** [error instanceof Error ? error : new Error('Unknown error')] *)
Definition as_error (thrown : Thrown) : JsError :=
  match thrown with
  | ThrowError e => e
  | ThrowValue _ => Error (js "Unknown error")
  end.

Section Handlers.

Variable toLowerCase : jsstring -> jsstring.

(** [GPT5QueryRequestSchema.parse], the schema library's check of the
    validated request: it returns a request or throws. *)
Variable parse : GPT5QueryRequest -> Result GPT5QueryRequest.

Variable create :
  GPT5Client.OpenAI -> GPT5Client.ChatParams -> Result GPT5Client.ChatCompletion.

(** Both components are built from the one configuration. *)
Variable gpt5Client : GPT5Client.t.

(** The readings of the clock, in the order the call takes them: at the
    start of the handler, before the upstream call, after it, and for the
    time stamp of the response. *)
Record Clock := mkClock {
  handlerStart : Z;
  queryStart : Z;
  handlerEnd : Z;
  stamp : Z
}.

Definition handleGPT5Query (clock : Clock) (args : JsVal) : ToolResult :=
  let startTime := handlerStart clock in
  match
    (let! validatedRequest :=
       validateRequest (GPT5Client.config gpt5Client) args in
     let! parsedRequest := parse validatedRequest in
     let finalRequest := truncateIfNeeded parsedRequest in
     let! openaiResponse :=
       GPT5Client.query create gpt5Client (queryStart clock) finalRequest in
     let processingTime := handlerEnd clock - startTime in
     let response :=
       formatResponse toLowerCase openaiResponse finalRequest
         (ofZ processingTime) (ofZ (stamp clock)) in
     ret (mkToolResult (content response) (Some false)))
  with
  | inr result => result
  | inl thrown =>
      let errorResponse :=
        createErrorResponse (as_error thrown) args (ofZ (stamp clock)) in
      mkToolResult (content errorResponse) (Some true)
  end.

(** [isoNow] is [new Date().toISOString()] *)
Definition handleTestConnection (startTime : Z) (isoNow : jsstring)
  : ToolResult :=
  match
    (let! isConnected := GPT5Client.testConnection create gpt5Client startTime in
     if isConnected : bool
     then
       let successMessage :=
         [9989%N] ++ js " **GPT-5 Connection Successful**" ++ [LF; LF]
         ++ js "Connected to OpenAI GPT-5 API successfully!" ++ [LF; LF]
         ++ js "**Available Models**: "
         ++ Config.join (js ", ") GPT5Client.getAvailableModels ++ [LF]
         ++ js "**Status**: Ready to process queries" ++ [LF]
         ++ js "**Timestamp**: " ++ isoNow in
       ret (mkToolResult successMessage (Some false))
     else throw (Error (js "Connection test failed")))
  with
  | inr result => result
  | inl thrown =>
      let errorMessage :=
        [10060%N] ++ js " **GPT-5 Connection Failed**" ++ [LF; LF]
        ++ js "Could not connect to OpenAI GPT-5 API." ++ [LF; LF]
        ++ js "**Error**: "
        ++ match thrown with
           | ThrowError e => error_message e
           | ThrowValue _ => js "Unknown error"
           end ++ [LF]
        ++ js "**Possible causes**:" ++ [LF]
        ++ js "- Invalid OpenAI API key" ++ [LF]
        ++ js "- Network connectivity issues" ++ [LF]
        ++ js "- OpenAI service outage" ++ [LF; LF]
        ++ js "Please check your API key configuration and try again." in
      mkToolResult errorMessage (Some true)
  end.

(** The handler of tool calls: [name] and [args] are the call's
    parameters. *)
Definition callTool (clock : Clock) (isoNow : jsstring)
    (name : jsstring) (args : JsVal) : ToolResult :=
  match
    (if bool_decide (name = js "gpt5_query")
     then ret (handleGPT5Query clock args)
     else if bool_decide (name = js "gpt5_test_connection")
     then ret (handleTestConnection (queryStart clock) isoNow)
     else throw (Error (js "Unknown tool: " ++ name)))
  with
  | inr result => result
  | inl thrown =>
      let errorResponse :=
        createErrorResponse (as_error thrown)
          (if bool_decide (name = js "gpt5_query") then args else JUndefined)
          (ofZ (stamp clock)) in
      mkToolResult (content errorResponse) None
  end.

End Handlers.

End Server.

(** * Notions and data used in the statements *)

(** The configuration of the repository's unit tests. *)
Definition testConfig : ServerConfig :=
  mkServerConfig
    (mkOpenAIConfig (Some (js "sk-test-key")) None (js "gpt-5-nano") (ofZ 30000))
    (mkServerInfo (js "test-server") (js "1.0.0") (ofZ 3) (ofZ 1000))
    (mkLoggingConfig error false false).

(** Being an object: [typeof] says so and the value is not [null]. *)
Definition is_object (v : JsVal) : bool :=
  JsType_eqb (typeof v) TObject && negb (match v with JNull => true | _ => false end).

(** A case conversion to run the formatter on examples: Basic Latin letters
    only, everything else unchanged. *)
Definition toLowerCaseASCII (s : jsstring) : jsstring :=
  map (fun c => if (65 <=? c)%N && (c <=? 90)%N then (c + 32)%N else c) s.

(** The response and the request of the repository's test "should handle
    empty response". *)
Definition emptyResponse : OpenAIResponse :=
  mkOpenAIResponse [] (mkUsage (ofZ 10) (ofZ 0) (ofZ 10))
    (js "test-fingerprint") (ofZ 1234567890).

Definition plainRequest : GPT5QueryRequest :=
  mkRequest (js "Test prompt") None (JString (js "gpt-5"))
    (JString (js "medium")) (JString (js "standard")) None None.

(** The test configuration without its API key. *)
Definition keylessConfig : ServerConfig :=
  mkServerConfig
    (mkOpenAIConfig None None (js "gpt-5-nano") (ofZ 30000))
    (server testConfig) (logging testConfig).

(** The parameters of the probe sent by [testConnection]: the smallest
    model, one user message, a cap of 10 tokens, no temperature. *)
Definition probeParams : GPT5Client.ChatParams :=
  GPT5Client.mkChatParams (JString (js "gpt-5-nano"))
    [ GPT5Client.mkInputMessage GPT5Client.user
        (js "Hello, this is a connection test.") ]
    (Some (ofZ 10)) None.

(** Two upstreams: one that rejects every call the way the SDK does on a
    bad key, one that answers "Hi". *)
Definition failingUpstream (sdk : GPT5Client.OpenAI)
    (params : GPT5Client.ChatParams) : Result GPT5Client.ChatCompletion :=
  inl (ThrowError (APIError (js "401 Incorrect API key provided") (Some (ofZ 401)))).

Definition answeringUpstream (sdk : GPT5Client.OpenAI)
    (params : GPT5Client.ChatParams) : Result GPT5Client.ChatCompletion :=
  inr (GPT5Client.mkChatCompletion
         (Some [ GPT5Client.mkChoice
                   (Some (GPT5Client.mkChatMessage (Some (js "Hi")))) ])
         (Some (GPT5Client.mkCompletionUsage
                  (Some (ofZ 10)) (Some (ofZ 1)) (Some (ofZ 11))))
         None (Some (ofZ 1234567890))).

Definition testClient : GPT5Client.t :=
  GPT5Client.mkClient
    (GPT5Client.mkOpenAI (js "sk-test-key") None (ofZ 30000)) testConfig.

(** The raw request of the test "should validate a complex request
    correctly". *)
Definition complexRawRequest : JsVal :=
  JObject {[ "prompt" := JString (js "Test prompt");
             "context" := JString (js "Test context");
             "model" := JString (js "gpt-5");
             "verbosity" := JString (js "high");
             "reasoning_effort" := JString (js "extended");
             "max_tokens" := JNumber (ofZ 1000);
             "temperature" := JNumber (Fin (Q2Qc (7 # 10))) ]}.

(** What [validateRequest] makes of it. *)
Definition complexRequest : GPT5QueryRequest :=
  mkRequest (js "Test prompt") (Some (js "Test context"))
    (JString (js "gpt-5")) (JString (js "high"))
    (JString (js "extended")) (Some (ofZ 1000))
    (Some (Fin (Q2Qc (7 # 10)))).

(** The fences of a text, counted while reading it: one for every third
    backtick in a row ([seen] is the number of backticks of the current
    row that belong to no fence yet). *)
Fixpoint runFences (seen : nat) (s : jsstring) : nat :=
  match s with
  | [] => 0%nat
  | c :: tl =>
      if (c =? 96)%N
      then if (seen =? 2)%nat
           then S (runFences 0 tl)
           else runFences (S seen) tl
      else runFences 0 tl
  end.

(** Does the text begin with a line feed? *)
Definition startsLF (s : jsstring) : bool :=
  match s with
  | c :: _ => (c =? LF)%N
  | [] => false
  end.

(** What [query] hands to the upstream call for a request. *)
Definition chatParams (request : GPT5QueryRequest) : GPT5Client.ChatParams :=
  GPT5Client.mkChatParams
    (GPT5Client.req_model (GPT5Client.formatRequest request))
    (GPT5Client.input (GPT5Client.formatRequest request))
    (GPT5Client.max_output_tokens (GPT5Client.formatRequest request))
    (GPT5Client.req_temperature (GPT5Client.formatRequest request)).

(** The text of an error response for a message. *)
Definition errorText (message : jsstring) : jsstring :=
  [10060%N] ++ js " **Error**: " ++ message ++ [LF; LF]
  ++ js "Please check your OpenAI API key and try again.".

(** The text shown when the connection test fails. *)
Definition connectionFailedText : jsstring :=
  [10060%N] ++ js " **GPT-5 Connection Failed**" ++ [LF; LF]
  ++ js "Could not connect to OpenAI GPT-5 API." ++ [LF; LF]
  ++ js "**Error**: Connection test failed" ++ [LF]
  ++ js "**Possible causes**:" ++ [LF]
  ++ js "- Invalid OpenAI API key" ++ [LF]
  ++ js "- Network connectivity issues" ++ [LF]
  ++ js "- OpenAI service outage" ++ [LF; LF]
  ++ js "Please check your API key configuration and try again.".

(** The text shown when it succeeds at the time [isoNow]. *)
Definition connectionOkText (isoNow : jsstring) : jsstring :=
  [9989%N] ++ js " **GPT-5 Connection Successful**" ++ [LF; LF]
  ++ js "Connected to OpenAI GPT-5 API successfully!" ++ [LF; LF]
  ++ js "**Available Models**: gpt-5, gpt-5-mini, gpt-5-nano" ++ [LF]
  ++ js "**Status**: Ready to process queries" ++ [LF]
  ++ js "**Timestamp**: " ++ isoNow.

(** A schema check that accepts every request, and a clock, to run the
    handlers on examples. *)
Definition acceptingSchema (request : GPT5QueryRequest)
  : Result GPT5QueryRequest := inr request.

Definition testClock : Server.Clock :=
  Server.mkClock 1700000000000 1700000000001 1700000001500 1700000001501.

(** An upstream that answers with no choice at all. *)
Definition silentUpstream (sdk : GPT5Client.OpenAI)
    (params : GPT5Client.ChatParams) : Result GPT5Client.ChatCompletion :=
  inr (GPT5Client.mkChatCompletion (Some []) None None None).

(** A loaded configuration at its TypeScript type, when it has one: the
    default model, the name and the version are strings and the log
    level is one of the four names. *)
Definition toLogLevel (s : jsstring) : option LogLevel :=
  if bool_decide (s = js "debug") then Some debug
  else if bool_decide (s = js "info") then Some info
  else if bool_decide (s = js "warn") then Some warn
  else if bool_decide (s = js "error") then Some error
  else None.

Definition asServerConfig (c : Config.LoadedConfig) : option ServerConfig :=
  match Config.lc_defaultModel c, Config.lc_name c, Config.lc_version c,
        Config.lc_level c with
  | JString theModel, JString theName, JString theVersion, JString theLevel =>
      match toLogLevel theLevel with
      | Some lvl =>
          Some (mkServerConfig
                  (mkOpenAIConfig (Some (Config.lc_apiKey c))
                     (Config.lc_baseURL c) theModel (Config.lc_timeout c))
                  (mkServerInfo theName theVersion
                     (Config.lc_maxRetries c) (Config.lc_retryDelay c))
                  (mkLoggingConfig lvl (Config.lc_logRequests c)
                     (Config.lc_logResponses c)))
      | None => None
      end
  | _, _, _, _ => None
  end.


(** [parseInt] on the texts the examples use: it agrees with the host's
    on decimal numerals, which give their value, and on texts without a
    digit, which give NaN. *)
Definition parseDigits (s : jsstring) : number :=
  if forallb (fun c => (48 <=? c)%N && (c <=? 57)%N) s && str_truthy s
  then ofZ (fold_left (fun acc c => 10 * acc + (Z.of_N c - 48)) s 0)
  else NaN.

(** The message of V8 for a property read of [undefined] or [null]. *)
Definition v8CannotRead (base : JsVal) (k : string) : jsstring :=
  js "Cannot read properties of "
  ++ (match base with JNull => js "null" | _ => js "undefined" end)
  ++ js " (reading '" ++ js k ++ js "')".

(** An environment that sets the key and leaves the rest to the defaults,
    one that also sets a timeout nobody can read and an empty server
    name, one whose three numeric settings are no numerals, and one whose
    key has the wrong form. *)
Definition keyEnv : gmap string jsstring :=
  {[ "OPENAI_API_KEY" := js "sk-test-key-1234567890" ]}.

Definition oddEnv : gmap string jsstring :=
  {[ "OPENAI_API_KEY" := js "sk-test-key-1234567890";
     "OPENAI_TIMEOUT" := js "soon";
     "SERVER_NAME" := [] ]}.


Definition badKeyEnv : gmap string jsstring :=
  {[ "OPENAI_API_KEY" := js "invalid-key-format" ]}.

(** The configuration that [keyEnv] gives with the built-in defaults. *)
Definition keyEnvConfig : Config.LoadedConfig :=
  Config.mkLoadedConfig (js "sk-test-key-1234567890") None
    (JString (js "gpt-5")) (ofZ 60000) (JString (js "gpt5-claude-mcp"))
    (JString (js "1.0.0")) (ofZ 3) (ofZ 1000) (JString (js "info"))
    false false.

(** * Properties *)

(** ** Strings *)

Section StringFacts.

Implicit Types s p : jsstring.

Lemma strlen_nonneg s : 0 <= strlen s.
Proof. unfold strlen. lia. Qed.

Lemma strlen_app s p : strlen (s ++ p) = strlen s + strlen p.
Proof. unfold strlen. rewrite length_app. lia. Qed.

Lemma strlen_nil_iff s : strlen s = 0 <-> s = [].
Proof.
  unfold strlen. split.
  - destruct s; [reflexivity | simpl; lia].
  - intros ->. reflexivity.
Qed.

(** [s.substring(0, n)] keeps the first [n] code units. *)
Lemma substring_prefix s n :
  0 <= n -> substring s 0 n = take (Z.to_nat n) s.
Proof.
  intros Hn. unfold substring, strlen.
  set (len := Z.of_nat (length s)).
  replace (Z.min (Z.max 0 0) len) with 0 by lia.
  replace (Z.min (Z.max n 0) len) with (Z.min n len) by lia.
  replace (Z.min 0 (Z.min n len)) with 0 by lia.
  replace (Z.max 0 (Z.min n len) - 0) with (Z.min n len) by lia.
  change (Z.to_nat 0) with 0%nat. rewrite drop_0.
  destruct (Z.le_ge_cases n len) as [Hle | Hge].
  - rewrite Z.min_l by lia. reflexivity.
  - rewrite Z.min_r by lia. subst len. rewrite Nat2Z.id.
    rewrite !take_ge by lia. reflexivity.
Qed.

Lemma strlen_substring_prefix s n :
  0 <= n -> strlen (substring s 0 n) = Z.min n (strlen s).
Proof.
  intros Hn. rewrite substring_prefix by assumption.
  unfold strlen. rewrite length_take. lia.
Qed.

Lemma startsWith_app p s : startsWith p (p ++ s) = true.
Proof.
  induction p as [| a p IH]; simpl; [reflexivity |].
  rewrite N.eqb_refl. exact IH.
Qed.


(** [startsWith] and [endsWith] mean what their names say. *)
Lemma startsWith_spec p s : startsWith p s = true <-> exists s', s = p ++ s'.
Proof.
  split.
  - revert s. induction p as [| a p IH]; intros s H; simpl in H.
    + exists s. reflexivity.
    + destruct s as [| b s]; [discriminate |].
      apply andb_true_iff in H as [Hab Hrest].
      apply N.eqb_eq in Hab as ->.
      destruct (IH s Hrest) as [s' ->]. exists s'. reflexivity.
  - intros [s' ->]. apply startsWith_app.
Qed.

Lemma endsWith_spec p s : endsWith p s = true <-> exists s', s = s' ++ p.
Proof.
  unfold endsWith. rewrite startsWith_spec. split.
  - intros [r Hr]. exists (rev r).
    rewrite <- (rev_involutive s), Hr, rev_app_distr, rev_involutive.
    reflexivity.
  - intros [s' ->]. exists (rev s'). apply rev_app_distr.
Qed.

End StringFacts.

(** ** Token budget and truncation *)

Section Truncation.

Lemma ceil_div_4_gt (n k : Z) : ceil_div n 4 > k <-> n > 4 * k.
Proof. unfold ceil_div. split; intros H; Z.to_euclidean_division_equations; lia. Qed.

(** The estimate exceeds 380,000 tokens exactly when the text has more
    than 1,520,000 code units. *)
Lemma estimateTokens_over text :
  estimateTokens text > 380000 <-> strlen text > 1520000.
Proof. unfold estimateTokens. rewrite ceil_div_4_gt. lia. Qed.

Lemma strlen_marker : strlen marker = 14.
Proof. reflexivity. Qed.

Lemma gtb_true (a b : Z) : a > b -> (a >? b) = true.
Proof. intros H. rewrite Z.gtb_ltb. apply Z.ltb_lt. lia. Qed.

Lemma gtb_false (a b : Z) : a <= b -> (a >? b) = false.
Proof. intros H. rewrite Z.gtb_ltb. apply Z.ltb_ge. lia. Qed.

(** What the function returns once the estimate is over the limit: the
    two fields are rewritten independently of each other. *)
Lemma truncateIfNeeded_over (request : GPT5QueryRequest) :
  estimateTokens (prompt request ++ default [] (context request)) > 380000 ->
  truncateIfNeeded request =
  mkRequest
    (if strlen (prompt request) >? 1520000
     then substring (prompt request) 0 1519900 ++ marker
     else prompt request)
    (match context request with
     | Some ctx =>
         if str_truthy ctx
         then Some (substring ctx 0
                      (Z.max 0 (1520000 - strlen (prompt request)))
                    ++ marker)
         else Some ctx
     | None => None
     end)
    (model request) (verbosity request) (reasoning_effort request)
    (max_tokens request) (temperature request).
Proof.
  intros Hover. unfold truncateIfNeeded. cbv zeta.
  rewrite (gtb_true _ _ Hover).
  apply estimateTokens_over in Hover. rewrite strlen_app in Hover.
  change (380000 * 4) with 1520000. change (1520000 - 100) with 1519900.
  destruct request as [p c m v e mt t]; simpl in *.
  destruct c as [ctx |]; simpl in *.
  - rewrite (gtb_true (strlen p + strlen ctx) 1520000) by lia.
    rewrite andb_true_r.
    destruct (str_truthy ctx); simpl;
      destruct (strlen p >? 1520000); reflexivity.
  - destruct (strlen p >? 1520000); reflexivity.
Qed.

(** C10. A request whose estimate, ceil((|prompt| + |context|) / 4), is at
    most 380,000 tokens is returned as it is: prompt, context, model,
    verbosity, reasoning_effort, max_tokens and temperature all keep the
    value they had in the input. *)
Theorem truncateIfNeeded_within_budget (request : GPT5QueryRequest) :
  estimateTokens (prompt request ++ default [] (context request)) <= 380000 ->
  let result := truncateIfNeeded request in
  result = request
  /\ prompt result = prompt request
  /\ context result = context request
  /\ model result = model request
  /\ verbosity result = verbosity request
  /\ reasoning_effort result = reasoning_effort request
  /\ max_tokens result = max_tokens request
  /\ temperature result = temperature request.
Proof.
  intros Hfits result.
  assert (Hsame : result = request).
  { subst result. unfold truncateIfNeeded. cbv zeta.
    rewrite (gtb_false _ _ Hfits). reflexivity. }
  rewrite Hsame. repeat split.
Qed.

Lemma truncateIfNeeded_within_budget_witness :
  truncateIfNeeded
    (mkRequest (js "Short prompt") (Some (js "Some context"))
       (JString (js "gpt-5")) (JString (js "medium"))
       (JString (js "standard")) (Some (ofZ 1000)) None)
  = mkRequest (js "Short prompt") (Some (js "Some context"))
      (JString (js "gpt-5")) (JString (js "medium"))
      (JString (js "standard")) (Some (ofZ 1000)) None.
Proof.
  apply (truncateIfNeeded_within_budget
           (mkRequest (js "Short prompt") (Some (js "Some context"))
              (JString (js "gpt-5")) (JString (js "medium"))
              (JString (js "standard")) (Some (ofZ 1000)) None)).
  vm_compute. discriminate.
Defined.


(** With the marker the new context has 14 code units more than the
    budget that the prompt leaves. *)
Lemma truncateIfNeeded_context_length (request : GPT5QueryRequest)
    (ctx : jsstring) :
  estimateTokens (prompt request ++ default [] (context request)) > 380000 ->
  context request = Some ctx -> ctx <> [] ->
  exists ctx',
    context (truncateIfNeeded request) = Some ctx'
    /\ strlen ctx' = Z.max 0 (1520000 - strlen (prompt request)) + 14.
Proof.
  intros Hover Hctx Hne.
  rewrite (truncateIfNeeded_over request Hover). simpl. rewrite Hctx.
  apply estimateTokens_over in Hover.
  rewrite strlen_app, Hctx in Hover. simpl in Hover.
  destruct ctx as [| c ctx]; [contradiction |]. simpl str_truthy.
  cbv iota. eexists. split; [reflexivity |].
  rewrite strlen_app, strlen_marker, strlen_substring_prefix by lia.
  pose proof (strlen_nonneg (prompt request)).
  pose proof (strlen_nonneg (c :: ctx)). lia.
Qed.




End Truncation.

(** ** Sanitization *)

Section Sanitization.

Implicit Types s text : jsstring.

Variable P : N -> Prop.

Lemma trimStart_Forall s : Forall P s -> Forall P (trimStart s).
Proof.
  induction 1 as [| c s Hc Hs IH]; simpl; [constructor |].
  destruct (isWhiteSpace c); [exact IH | constructor; assumption].
Qed.

Lemma trimEnd_Forall s : Forall P s -> Forall P (trimEnd s).
Proof.
  intros H. unfold trimEnd.
  apply List.Forall_rev, trimStart_Forall, List.Forall_rev, H.
Qed.

Lemma trim_Forall s : Forall P s -> Forall P (trim s).
Proof. intros H. apply trimEnd_Forall, trimStart_Forall, H. Qed.

Lemma filter_Forall (f : N -> bool) s :
  Forall P s -> Forall P (List.filter f s).
Proof.
  induction 1 as [| c s Hc Hs IH]; simpl; [constructor |].
  destruct (f c); [constructor; assumption | exact IH].
Qed.

Lemma substring_prefix_Forall s n :
  0 <= n -> Forall P s -> Forall P (substring s 0 n).
Proof.
  intros Hn H. rewrite substring_prefix by assumption.
  apply Forall_take, H.
Qed.

End Sanitization.

Section SanitizeText.

Implicit Types s text : jsstring.

Lemma trimStart_length s : (length (trimStart s) <= length s)%nat.
Proof.
  induction s as [| c s IH]; simpl; [lia |].
  destruct (isWhiteSpace c); simpl; lia.
Qed.

Lemma trim_length s : (length (trim s) <= length s)%nat.
Proof.
  unfold trim, trimEnd. rewrite length_rev.
  pose proof (trimStart_length (rev (trimStart s))) as H1.
  rewrite length_rev in H1.
  pose proof (trimStart_length s). lia.
Qed.

Lemma filter_passes (f : N -> bool) s :
  Forall (fun c => f c = true) (List.filter f s).
Proof.
  induction s as [| c s IH]; simpl; [constructor |].
  destruct (f c) eqn:Hc; [constructor; assumption | exact IH].
Qed.

Lemma filter_all (f : N -> bool) s :
  Forall (fun c => f c = true) s -> List.filter f s = s.
Proof.
  induction 1 as [| c s Hc Hs IH]; simpl; [reflexivity |].
  rewrite Hc, IH. reflexivity.
Qed.

(** No null byte and no code unit of the class [[\x01-\x1F\x7F]] is
    left in the result. *)
Lemma sanitizeText_no_nul text :
  Forall (fun c => negb (isNul c) = true) (sanitizeText text).
Proof.
  unfold sanitizeText.
  apply substring_prefix_Forall; [lia |].
  apply filter_Forall, filter_passes.
Qed.

Lemma sanitizeText_no_control text :
  Forall (fun c => negb (isControl c) = true) (sanitizeText text).
Proof.
  unfold sanitizeText.
  apply substring_prefix_Forall; [lia |].
  apply filter_passes.
Qed.

(** The result has at most 100,000 code units. *)
Lemma sanitizeText_length text : strlen (sanitizeText text) <= 100000.
Proof.
  unfold sanitizeText. rewrite strlen_substring_prefix by lia. lia.
Qed.

(** On text that is already free of those code units and short enough,
    only the trimming is left. *)
Lemma sanitizeText_clean text :
  Forall (fun c => negb (isNul c) = true) text ->
  Forall (fun c => negb (isControl c) = true) text ->
  strlen text <= 100000 ->
  sanitizeText text = trim text.
Proof.
  intros Hnul Hctl Hlen. unfold sanitizeText.
  rewrite (filter_all (fun c => negb (isNul c)))
    by (apply trim_Forall, Hnul).
  rewrite (filter_all (fun c => negb (isControl c)))
    by (apply trim_Forall, Hctl).
  rewrite substring_prefix by lia.
  apply take_ge.
  pose proof (trim_length text). unfold strlen in Hlen. lia.
Qed.

(** C3, as the code has it. Sanitizing text that is already sanitized
    only trims it: the second pass finds no null byte, no control
    character and at most 100,000 code units, so what it returns is the
    first result with its surrounding white space removed. The two
    passes agree with one exactly when the first result neither starts
    nor ends with white space. *)
Theorem sanitizeText_twice text :
  sanitizeText (sanitizeText text) = trim (sanitizeText text).
Proof.
  apply sanitizeText_clean.
  - apply sanitizeText_no_nul.
  - apply sanitizeText_no_control.
  - apply sanitizeText_length.
Qed.

(** C3, as stated, fails: a control character in front of a blank shields
    the blank from the first trim. Input: BEL, space, "hello". *)
Lemma sanitizeText_not_idempotent :
  sanitizeText (sanitizeText ([7; 32]%N ++ js "hello"))
  <> sanitizeText ([7; 32]%N ++ js "hello").
Proof. vm_compute. discriminate. Qed.

Example sanitizeText_once :
  sanitizeText ([7; 32]%N ++ js "hello") = js " hello".
Proof. reflexivity. Qed.

Example sanitizeText_again : sanitizeText (js " hello") = js "hello".
Proof. reflexivity. Qed.

(** No line feed, tab or carriage return is ever left in a result. *)
Lemma sanitizeText_no_newline_or_tab text (c : N) :
  In c (sanitizeText text) -> c <> 10%N /\ c <> 9%N /\ c <> 13%N.
Proof.
  intros Hin.
  pose proof (sanitizeText_no_control text) as H.
  rewrite List.Forall_forall in H. specialize (H c Hin).
  repeat split; intros ->; discriminate.
Qed.

(** C5 on the code: the line feed and the tab of "line one\ncol\tumn" do
    not survive, and no text keeps a line feed or a tab, although the
    comment beside the pattern says control characters are removed "except
    newlines/tabs". *)
Theorem sanitizeText_drops_newline_and_tab :
  sanitizeText (js "line one" ++ [10%N] ++ js "col" ++ [9%N] ++ js "umn")
  = js "line onecolumn"
  /\ forall text, Forall (fun c => c <> 10%N /\ c <> 9%N) (sanitizeText text).
Proof.
  split; [reflexivity |].
  intros text. apply List.Forall_forall. intros c Hin.
  destruct (sanitizeText_no_newline_or_tab text c Hin) as (Hlf & Htab & _).
  split; assumption.
Qed.

Lemma trimStart_idem s : trimStart (trimStart s) = trimStart s.
Proof.
  induction s as [| c s IH]; simpl; [reflexivity |].
  destruct (isWhiteSpace c) eqn:Hc; [exact IH |].
  simpl. rewrite Hc. reflexivity.
Qed.

Lemma trimEnd_idem s : trimEnd (trimEnd s) = trimEnd s.
Proof. unfold trimEnd. rewrite rev_involutive, trimStart_idem. reflexivity. Qed.

(** Trimming the start never eats a final code unit that is not white
    space. *)
Lemma trimStart_keeps_last (c : N) s :
  isWhiteSpace c = false -> exists s', trimStart (s ++ [c]) = s' ++ [c].
Proof.
  intros Hc. induction s as [| d s IH]; simpl.
  - rewrite Hc. exists []. reflexivity.
  - destruct (isWhiteSpace d); [exact IH | exists (d :: s); reflexivity].
Qed.

Lemma trimStart_trimEnd s :
  trimStart s = s -> trimStart (trimEnd s) = trimEnd s.
Proof.
  intros Hs. unfold trimEnd.
  destruct s as [| c s]; [reflexivity |].
  simpl in Hs. destruct (isWhiteSpace c) eqn:Hc.
  - pose proof (trimStart_length s) as Hl.
    apply (f_equal (@length N)) in Hs. simpl in Hs. lia.
  - simpl rev.
    destruct (trimStart_keeps_last c (rev s) Hc) as [s' Hs'].
    rewrite Hs', rev_app_distr. simpl. rewrite Hc. reflexivity.
Qed.

Lemma trim_idem s : trim (trim s) = trim s.
Proof.
  unfold trim.
  rewrite (trimStart_trimEnd (trimStart s)) by apply trimStart_idem.
  apply trimEnd_idem.
Qed.

(** The parts of C5 that do hold: the text is trimmed before anything
    else, so white space around the input has no effect on the result. *)
Lemma sanitizeText_of_trimmed text :
  sanitizeText (trim text) = sanitizeText text.
Proof. unfold sanitizeText. rewrite trim_idem. reflexivity. Qed.

End SanitizeText.

(** ** Request validation *)

Section Validation.

Variable config : ServerConfig.

Lemma is_object_passes (rawRequest : JsVal) :
  is_object rawRequest = true ->
  negb (truthy rawRequest) || negb (JsType_eqb (typeof rawRequest) TObject)
  = false.
Proof. destruct rawRequest; simpl; try discriminate; reflexivity. Qed.

Lemma validateRequest_not_object (rawRequest : JsVal) :
  is_object rawRequest = false ->
  validateRequest config rawRequest
  = inl (ThrowError (Error (js "Invalid request: must be an object"))).
Proof.
  intros Hnot. unfold validateRequest.
  destruct rawRequest as [| | b | n | s | items | props];
    simpl in *; try discriminate; try reflexivity.
  - destruct b; reflexivity.
  - destruct (num_truthy n); reflexivity.
  - destruct (str_truthy s); reflexivity.
Qed.

(** C6. An input that is not an object ([null] included) is rejected with
    "Invalid request: must be an object"; an object whose [prompt] is
    absent or not a string is rejected with "Invalid request: prompt is
    required and must be a string". In both cases the result is the
    thrown error and no request. *)
Theorem validateRequest_rejects (rawRequest : JsVal) :
  (is_object rawRequest = false ->
   validateRequest config rawRequest
   = inl (ThrowError (Error (js "Invalid request: must be an object"))))
  /\ (is_object rawRequest = true ->
      get rawRequest "prompt" = JUndefined
      \/ typeof (get rawRequest "prompt") <> TString ->
      validateRequest config rawRequest
      = inl (ThrowError
               (Error (js "Invalid request: prompt is required and must be a string")))).
Proof.
  split.
  - apply validateRequest_not_object.
  - intros Hobj Hprompt. unfold validateRequest.
    rewrite (is_object_passes _ Hobj).
    destruct Hprompt as [Habsent | Htype].
    + rewrite Habsent. reflexivity.
    + destruct (typeof (get rawRequest "prompt")) eqn:Ht;
        try (rewrite orb_true_r; reflexivity).
      contradiction.
Qed.

Lemma buildRequest_fields (rawRequest : JsVal) :
  prompt (buildRequest config rawRequest)
  = sanitizeText (the_string (get rawRequest "prompt"))
  /\ model (buildRequest config rawRequest)
     = or_else (get rawRequest "model") (JString (defaultModel (openai config)))
  /\ verbosity (buildRequest config rawRequest)
     = or_else (get rawRequest "verbosity") (JString (js "medium"))
  /\ reasoning_effort (buildRequest config rawRequest)
     = or_else (get rawRequest "reasoning_effort") (JString (js "standard")).
Proof.
  unfold buildRequest. cbv zeta.
  repeat match goal with |- context [if ?c then _ else _] =>
    destruct c end; repeat split.
Qed.

Lemma buildRequest_max_tokens (rawRequest : JsVal) :
  max_tokens (buildRequest config rawRequest)
  = if truthy (get rawRequest "max_tokens")
       && JsType_eqb (typeof (get rawRequest "max_tokens")) TNumber
    then Some (Math_min
                 (Math_max (the_number (get rawRequest "max_tokens")) (ofZ 1))
                 (ofZ 128000))
    else None.
Proof.
  unfold buildRequest. cbv zeta.
  repeat match goal with |- context [if ?c then _ else _] =>
    destruct c end; reflexivity.
Qed.

(** [validateRequest] accepts exactly the objects whose [prompt] is a
    non-empty string, and then returns [buildRequest]. *)
Lemma validateRequest_accepts_iff (rawRequest : JsVal) (request : GPT5QueryRequest) :
  validateRequest config rawRequest = inr request
  <-> is_object rawRequest = true
      /\ (exists p, get rawRequest "prompt" = JString p /\ p <> [])
      /\ request = buildRequest config rawRequest.
Proof.
  split.
  - intros Hok.
    destruct (is_object rawRequest) eqn:Hobj.
    2:{ rewrite (validateRequest_not_object rawRequest Hobj) in Hok.
        discriminate. }
    unfold validateRequest in Hok. rewrite (is_object_passes _ Hobj) in Hok.
    destruct (get rawRequest "prompt") as [| | b | n | p | items | props] eqn:Hp;
      simpl in Hok; try discriminate;
      try (rewrite orb_true_r in Hok; discriminate).
    destruct p as [| c p]; simpl in Hok; [discriminate |].
    injection Hok as <-.
    repeat split. exists (c :: p). split; [reflexivity | discriminate].
  - intros (Hobj & (p & Hp & Hne) & ->).
    unfold validateRequest. rewrite (is_object_passes _ Hobj).
    rewrite Hp.
    destruct p; [contradiction | reflexivity].
Qed.

Lemma or_else_undefined (d : JsVal) : or_else JUndefined d = d.
Proof. reflexivity. Qed.

(** C7, as the code has it. An accepted input is an object whose [prompt]
    is a non-empty string; the returned prompt is the sanitized form of
    that string (present, but possibly empty); [model], [verbosity] and
    [reasoning_effort] take the configured default, "medium" and
    "standard" when the input does not have them. Conversely every
    object with a non-empty string prompt is accepted, whatever else it
    has or lacks: a missing field is never an error. *)
Theorem validateRequest_accepted (rawRequest : JsVal) :
  (forall request, validateRequest config rawRequest = inr request ->
     (exists p, get rawRequest "prompt" = JString p /\ p <> []
                /\ prompt request = sanitizeText p)
     /\ (get rawRequest "model" = JUndefined ->
         model request = JString (defaultModel (openai config)))
     /\ (get rawRequest "verbosity" = JUndefined ->
         verbosity request = JString (js "medium"))
     /\ (get rawRequest "reasoning_effort" = JUndefined ->
         reasoning_effort request = JString (js "standard")))
  /\ (is_object rawRequest = true ->
      (exists p, get rawRequest "prompt" = JString p /\ p <> []) ->
      exists request, validateRequest config rawRequest = inr request).
Proof.
  split.
  - intros request Hok.
    apply validateRequest_accepts_iff in Hok as (_ & (p & Hp & Hne) & ->).
    destruct (buildRequest_fields rawRequest) as (Hprompt & Hmodel & Hverb & Heffort).
    repeat apply conj.
    + exists p. rewrite Hprompt, Hp. repeat split; assumption.
    + intros Habs. rewrite Hmodel, Habs. reflexivity.
    + intros Habs. rewrite Hverb, Habs. reflexivity.
    + intros Habs. rewrite Heffort, Habs. reflexivity.
  - intros Hobj Hp. exists (buildRequest config rawRequest).
    apply validateRequest_accepts_iff. repeat split; assumption.
Qed.

(** Where [max_tokens] is a number other than zero (and not NaN), the
    result carries it clamped to [1, 128000]. *)
Lemma validateRequest_clamps (rawRequest : JsVal) (request : GPT5QueryRequest)
    (x : number) :
  validateRequest config rawRequest = inr request ->
  get rawRequest "max_tokens" = JNumber x ->
  num_truthy x = true ->
  max_tokens request = Some (Math_min (Math_max x (ofZ 1)) (ofZ 128000)).
Proof.
  intros Hok Hx Htruthy.
  apply validateRequest_accepts_iff in Hok as (_ & _ & ->).
  rewrite buildRequest_max_tokens, Hx. simpl. rewrite Htruthy. reflexivity.
Qed.

(** A [max_tokens] of zero is falsy: the guard skips it and the result
    has no [max_tokens] at all. *)
Lemma validateRequest_drops_zero (rawRequest : JsVal) (request : GPT5QueryRequest) :
  validateRequest config rawRequest = inr request ->
  get rawRequest "max_tokens" = JNumber (ofZ 0) ->
  max_tokens request = None.
Proof.
  intros Hok Hx.
  apply validateRequest_accepts_iff in Hok as (_ & _ & ->).
  rewrite buildRequest_max_tokens, Hx. reflexivity.
Qed.

End Validation.

(** Clamping sends every number below 1 to 1 and every number above
    128000 to 128000. *)
Lemma clamp_low (x : number) :
  num_lt x (ofZ 1) = true ->
  Math_min (Math_max x (ofZ 1)) (ofZ 128000) = ofZ 1.
Proof.
  unfold num_lt, Math_min, Math_max.
  destruct x as [| | | q]; simpl; try discriminate; try reflexivity.
  intros Hlt. apply negb_true_iff, bool_decide_eq_false in Hlt.
  rewrite bool_decide_eq_true_2; [reflexivity |].
  apply Qclt_le_weak, Qcnot_le_lt, Hlt.
Qed.

Lemma clamp_high (x : number) :
  num_lt (ofZ 128000) x = true ->
  Math_min (Math_max x (ofZ 1)) (ofZ 128000) = ofZ 128000.
Proof.
  unfold num_lt, Math_min, Math_max.
  destruct x as [| | | q]; simpl; try discriminate; try reflexivity.
  intros Hlt. apply negb_true_iff, bool_decide_eq_false in Hlt.
  apply Qcnot_le_lt in Hlt.
  rewrite bool_decide_eq_false_2.
  - simpl. rewrite bool_decide_eq_false_2; [reflexivity |].
    apply Qclt_not_le, Hlt.
  - apply Qclt_not_le. eapply Qclt_trans; [| exact Hlt]. reflexivity.
Qed.

Lemma validateRequest_rejects_witness :
  validateRequest testConfig JNull
  = inl (ThrowError (Error (js "Invalid request: must be an object")))
  /\ validateRequest testConfig (JObject {[ "model" := JString (js "gpt-5") ]})
     = inl (ThrowError
              (Error (js "Invalid request: prompt is required and must be a string"))).
Proof.
  split.
  - apply (proj1 (validateRequest_rejects testConfig JNull)). reflexivity.
  - apply (proj2 (validateRequest_rejects testConfig
                    (JObject {[ "model" := JString (js "gpt-5") ]}))).
    + reflexivity.
    + left. vm_compute. reflexivity.
Defined.

(** The input of the end-to-end scenario, [{ prompt: "Hello" }]. *)
Lemma validateRequest_accepted_witness :
  exists request,
    validateRequest testConfig (JObject {[ "prompt" := JString (js "Hello") ]})
    = inr request
    /\ prompt request = js "Hello"
    /\ model request = JString (js "gpt-5-nano")
    /\ verbosity request = JString (js "medium")
    /\ reasoning_effort request = JString (js "standard").
Proof.
  destruct (validateRequest_accepted testConfig
              (JObject {[ "prompt" := JString (js "Hello") ]}))
    as [Hfields Haccepts].
  destruct Haccepts as [request Hok].
  - reflexivity.
  - exists (js "Hello"). split; [vm_compute; reflexivity | discriminate].
  - exists request. split; [exact Hok |].
    destruct (Hfields request Hok) as ((p & Hp & _ & Hprompt) & Hm & Hv & He).
    vm_compute in Hp. injection Hp as <-.
    repeat split.
    + exact Hprompt.
    + apply Hm. vm_compute. reflexivity.
    + apply Hv. vm_compute. reflexivity.
    + apply He. vm_compute. reflexivity.
Defined.

(** C7, as stated, fails: a prompt of three blanks passes the test on the
    raw input and is then sanitized to the empty string. *)
Lemma validateRequest_blank_prompt :
  exists request,
    validateRequest testConfig (JObject {[ "prompt" := JString (js "   ") ]})
    = inr request
    /\ prompt request = [].
Proof. eexists. split; [vm_compute; reflexivity | reflexivity]. Qed.

(** C2 at the input [{ prompt: "Test prompt", max_tokens: 0 }]: the
    request is accepted and has no [max_tokens] at all, where the nearest
    boundary would be 1. *)
Theorem validateRequest_max_tokens_zero :
  validateRequest testConfig
    (JObject {[ "prompt" := JString (js "Test prompt");
                "max_tokens" := JNumber (ofZ 0) ]})
  = inr (mkRequest (js "Test prompt") None (JString (js "gpt-5-nano"))
           (JString (js "medium")) (JString (js "standard")) None None).
Proof. vm_compute. reflexivity. Qed.

(** Every other number outside the range goes to the nearest boundary:
    200000 becomes 128000, and so does every number above 128000; every
    number below 1 other than zero becomes 1. *)
Example validateRequest_max_tokens_200000 :
  validateRequest testConfig
    (JObject {[ "prompt" := JString (js "Test prompt");
                "max_tokens" := JNumber (ofZ 200000) ]})
  = inr (mkRequest (js "Test prompt") None (JString (js "gpt-5-nano"))
           (JString (js "medium")) (JString (js "standard"))
           (Some (ofZ 128000)) None).
Proof. vm_compute. reflexivity. Qed.

Lemma validateRequest_nearest_boundary (config : ServerConfig)
    (rawRequest : JsVal) (request : GPT5QueryRequest) (x : number) :
  validateRequest config rawRequest = inr request ->
  get rawRequest "max_tokens" = JNumber x ->
  x <> ofZ 0 ->
  (num_lt x (ofZ 1) = true -> max_tokens request = Some (ofZ 1))
  /\ (num_lt (ofZ 128000) x = true -> max_tokens request = Some (ofZ 128000)).
Proof.
  intros Hok Hx Hnz.
  split; intros Hout.
  - rewrite (validateRequest_clamps config rawRequest request x Hok Hx).
    + rewrite clamp_low by assumption. reflexivity.
    + destruct x as [| | | q]; try reflexivity; try discriminate.
      simpl. apply negb_true_iff, bool_decide_eq_false.
      intros ->. apply Hnz. reflexivity.
  - rewrite (validateRequest_clamps config rawRequest request x Hok Hx).
    + rewrite clamp_high by assumption. reflexivity.
    + destruct x as [| | | q]; try reflexivity; try discriminate.
      simpl. apply negb_true_iff, bool_decide_eq_false.
      intros ->. apply Hnz. reflexivity.
Qed.

(** ** Response formatting *)

Section Formatting.

Variable toLowerCase : jsstring -> jsstring.

Variables (originalRequest : GPT5QueryRequest) (processingTimeMs now : number).

Lemma formatResponseContent_empty :
  formatResponseContent toLowerCase [] = js "No response generated.".
Proof. reflexivity. Qed.

Lemma formatResponseContent_nonempty (text : jsstring) :
  text <> [] ->
  exists body, formatResponseContent toLowerCase text = header ++ body.
Proof.
  intros Hne. unfold formatResponseContent.
  destruct text as [| c text]; [contradiction |].
  simpl negb. cbv iota. eexists. reflexivity.
Qed.

(** C4, as the code has it. For an upstream response with empty text the
    content is the placeholder "No response generated." and nothing
    else: the function returns before the header is put in front. The
    header is the prefix of the content exactly for non-empty text. *)
Theorem formatResponse_empty_text (openaiResponse : OpenAIResponse) :
  let result :=
    formatResponse toLowerCase openaiResponse originalRequest
      processingTimeMs now in
  (output_text openaiResponse = [] ->
     content result = js "No response generated."
     /\ startsWith header (content result) = false)
  /\ (output_text openaiResponse <> [] ->
      startsWith header (content result) = true).
Proof.
  intros result. subst result. unfold formatResponse. cbv zeta. simpl content.
  split.
  - intros ->. split; reflexivity.
  - intros Hne.
    destruct (formatResponseContent_nonempty _ Hne) as [body ->].
    apply startsWith_app.
Qed.

End Formatting.

Lemma formatResponse_empty_text_witness :
  content (formatResponse toLowerCaseASCII emptyResponse plainRequest
             (ofZ 100) (ofZ 0))
  = js "No response generated."
  /\ startsWith header
       (content (formatResponse toLowerCaseASCII
                   (mkOpenAIResponse (js "Hi") (mkUsage (ofZ 10) (ofZ 1) (ofZ 11))
                      (js "test-fingerprint") (ofZ 1234567890))
                   plainRequest (ofZ 100) (ofZ 0)))
     = true.
Proof.
  split.
  - apply (proj1 (formatResponse_empty_text toLowerCaseASCII plainRequest
                    (ofZ 100) (ofZ 0) emptyResponse)).
    reflexivity.
  - apply (proj2 (formatResponse_empty_text toLowerCaseASCII plainRequest
                    (ofZ 100) (ofZ 0)
                    (mkOpenAIResponse (js "Hi") (mkUsage (ofZ 10) (ofZ 1) (ofZ 11))
                       (js "test-fingerprint") (ofZ 1234567890)))).
    simpl. discriminate.
Defined.

(** C4, as stated, fails: for the empty text the content does not start
    with the header. *)
Lemma formatResponse_placeholder_without_header :
  output_text emptyResponse = []
  /\ startsWith header
       (content (formatResponse toLowerCaseASCII emptyResponse plainRequest
                   (ofZ 100) (ofZ 0)))
     = false.
Proof. split; reflexivity. Qed.

(** ** The upstream client *)

Section Client.

(** C8. With a configuration whose API key is missing or empty, the
    constructor throws a [GPT5ClientError] with the message "OpenAI API
    key is required". No client comes into being, so nothing is left
    for a later [query] to fail on. *)
Theorem constructor_requires_api_key (config : ServerConfig) :
  apiKey (openai config) = None \/ apiKey (openai config) = Some [] ->
  GPT5Client.constructor config
  = inl (ThrowError
           (GPT5ClientError (js "OpenAI API key is required") None None))
  /\ (forall client, GPT5Client.constructor config <> inr client).
Proof.
  intros Hkey. unfold GPT5Client.constructor.
  destruct Hkey as [-> | ->]; simpl; split; try reflexivity;
    intros client; discriminate.
Qed.

(** With a non-empty key the constructor returns a client. *)
Lemma constructor_with_api_key (config : ServerConfig) (key : jsstring) :
  apiKey (openai config) = Some key -> key <> [] ->
  exists client, GPT5Client.constructor config = inr client
                 /\ GPT5Client.config client = config.
Proof.
  intros Hkey Hne. unfold GPT5Client.constructor. rewrite Hkey.
  destruct key; [contradiction |]. simpl. eexists. split; reflexivity.
Qed.

End Client.

Lemma constructor_requires_api_key_witness :
  GPT5Client.constructor keylessConfig
  = inl (ThrowError
           (GPT5ClientError (js "OpenAI API key is required") None None)).
Proof.
  apply (constructor_requires_api_key keylessConfig).
  left. reflexivity.
Defined.

Section Connection.

Import GPT5Client.

Variable create : OpenAI -> ChatParams -> Result ChatCompletion.
Variables (client : t) (startTime : Z).

Lemma formatRequest_testRequest :
  formatRequest testRequest
  = mkOpenAIRequest (JString (js "gpt-5-nano"))
      [ mkInputMessage user (js "Hello, this is a connection test.") ]
      (Some (ofZ 10)) (JString (js "low")) (JString (js "minimal")) None.
Proof. reflexivity. Qed.

(** The probe query throws exactly when the upstream call does, and what
    it throws is always a [GPT5ClientError]. *)
Lemma query_probe_outcome :
  match create (openai_sdk client) probeParams with
  | inl thrown =>
      exists m st orig,
        query create client startTime testRequest
        = inl (ThrowError (GPT5ClientError m st orig))
  | inr response =>
      exists formatted,
        query create client startTime testRequest = inr formatted
  end.
Proof.
  unfold query. rewrite formatRequest_testRequest. cbv zeta. simpl.
  fold probeParams.
  destruct (create (openai_sdk client) probeParams) as [thrown | response];
    simpl.
  - destruct thrown as [e | v]; [destruct e |]; simpl; eauto.
  - eauto.
Qed.

(** C9. [testConnection] always returns a boolean and throws nothing:
    it returns [false] whenever the probe query throws, in particular
    whenever the upstream call fails with any exception, and [true]
    whenever the probe query returns, in particular whenever the
    upstream call succeeds. *)
Theorem testConnection_never_throws :
  (exists b, testConnection create client startTime = inr b)
  /\ (forall thrown,
        query create client startTime testRequest = inl thrown ->
        testConnection create client startTime = inr false)
  /\ (forall formatted,
        query create client startTime testRequest = inr formatted ->
        testConnection create client startTime = inr true)
  /\ (forall thrown,
        create (openai_sdk client) probeParams = inl thrown ->
        testConnection create client startTime = inr false)
  /\ (forall response,
        create (openai_sdk client) probeParams = inr response ->
        testConnection create client startTime = inr true).
Proof.
  assert (Hq_throw : forall thrown,
    query create client startTime testRequest = inl thrown ->
    testConnection create client startTime = inr false).
  { intros thrown Hq. unfold testConnection. rewrite Hq. reflexivity. }
  assert (Hq_ok : forall formatted,
    query create client startTime testRequest = inr formatted ->
    testConnection create client startTime = inr true).
  { intros formatted Hq. unfold testConnection. rewrite Hq. reflexivity. }
  pose proof query_probe_outcome as Hprobe.
  repeat apply conj.
  - destruct (query create client startTime testRequest) as [thrown | r] eqn:Hq.
    + exists false. apply (Hq_throw thrown). reflexivity.
    + exists true. apply (Hq_ok r). reflexivity.
  - exact Hq_throw.
  - exact Hq_ok.
  - intros thrown Hup. rewrite Hup in Hprobe.
    destruct Hprobe as (m & st & orig & Hq). eapply Hq_throw, Hq.
  - intros response Hup. rewrite Hup in Hprobe.
    destruct Hprobe as (formatted & Hq). eapply Hq_ok, Hq.
Qed.

End Connection.

Lemma testConnection_never_throws_witness :
  GPT5Client.testConnection failingUpstream testClient 1700000000000 = inr false
  /\ GPT5Client.testConnection answeringUpstream testClient 1700000000000
     = inr true.
Proof.
  split.
  - destruct (testConnection_never_throws failingUpstream testClient 1700000000000)
      as (_ & _ & _ & Hfails & _).
    eapply Hfails. reflexivity.
  - destruct (testConnection_never_throws answeringUpstream testClient 1700000000000)
      as (_ & _ & _ & _ & Hanswers).
    eapply Hanswers. reflexivity.
Defined.

Example query_failingUpstream :
  GPT5Client.query failingUpstream testClient 1700000000000 GPT5Client.testRequest
  = inl (ThrowError
           (GPT5ClientError
              (js "OpenAI API Error: 401 Incorrect API key provided")
              (Some (ofZ 401))
              (Some (APIError (js "401 Incorrect API key provided")
                       (Some (ofZ 401)))))).
Proof. reflexivity. Qed.

Example constructor_testConfig :
  GPT5Client.constructor testConfig = inr testClient.
Proof. reflexivity. Qed.

(** ** The embedding run on the repository's unit tests *)

Example validateRequest_complex :
  validateRequest testConfig complexRawRequest
  = inr (mkRequest (js "Test prompt") (Some (js "Test context"))
           (JString (js "gpt-5")) (JString (js "high"))
           (JString (js "extended")) (Some (ofZ 1000))
           (Some (Fin (Q2Qc (7 # 10))))).
Proof. vm_compute. reflexivity. Qed.

Example validateRequest_temperature_3 :
  (let! request :=
     validateRequest testConfig
       (JObject {[ "prompt" := JString (js "Test prompt");
                   "temperature" := JNumber (ofZ 3) ]}) in
   ret (temperature request))
  = inr (Some (ofZ 2)).
Proof. vm_compute. reflexivity. Qed.

Example estimateTokens_fifty : estimateTokens (repeat 97%N 50) = 13.
Proof. reflexivity. Qed.

(** "Here is some code:", an unlabelled fence that is never closed, and a
    function: the fence is closed and labelled. *)
Example formatResponseContent_code :
  formatResponseContent toLowerCaseASCII
    (js "Here is some code:" ++ [LF] ++ js "```" ++ [LF]
     ++ js "function test() {" ++ [LF] ++ js "  return true;" ++ [LF] ++ js "}")
  = header ++ js "Here is some code:" ++ [LF] ++ js "```text" ++ [LF]
    ++ js "function test() {" ++ [LF] ++ js "  return true;" ++ [LF] ++ js "}"
    ++ [LF] ++ js "```".
Proof. vm_compute. reflexivity. Qed.

(** A labelled fence is left alone, a closing fence followed by a blank
    line is labelled like an opening one, four line feeds become two. *)
Example formatResponseContent_blank_lines :
  formatResponseContent toLowerCaseASCII
    (js "```js" ++ [LF] ++ js "x" ++ [LF] ++ js "```" ++ [LF; LF; LF; LF]
     ++ js "done")
  = header ++ js "```js" ++ [LF] ++ js "x" ++ [LF] ++ js "```text" ++ [LF; LF]
    ++ js "done".
Proof. vm_compute. reflexivity. Qed.

Example createErrorResponse_content :
  content (createErrorResponse (Error (js "Test error message"))
             (JObject {[ "prompt" := JString (js "Test prompt");
                         "model" := JString (js "gpt-5") ]})
             (ofZ 0))
  = [10060%N] ++ js " **Error**: Test error message" ++ [LF; LF]
    ++ js "Please check your OpenAI API key and try again.".
Proof. vm_compute. reflexivity. Qed.

(** * Further properties of the code *)

(** ** truncateIfNeeded *)

Section TruncationMore.

Implicit Types request : GPT5QueryRequest.

(** The code units a request sends: prompt and context together. *)
Lemma estimateTokens_within text :
  estimateTokens text <= 380000 <-> strlen text <= 1520000.
Proof.
  pose proof (estimateTokens_over text) as H. split; intros Hle.
  - destruct (Z.le_gt_cases (strlen text) 1520000) as [Hok | Hbig]; [exact Hok |].
    assert (estimateTokens text > 380000) by (apply H; lia). lia.
  - destruct (Z.le_gt_cases (estimateTokens text) 380000) as [Hok | Hbig]; [exact Hok |].
    assert (strlen text > 1520000) by (apply H; lia). lia.
Qed.

Lemma truncateIfNeeded_fits request :
  strlen (prompt request ++ default [] (context request)) <= 1520000 ->
  truncateIfNeeded request = request.
Proof.
  intros Hfits. apply estimateTokens_within in Hfits.
  unfold truncateIfNeeded. cbv zeta. rewrite (gtb_false _ _ Hfits). reflexivity.
Qed.

(** The estimate is the least number of four-unit tokens that cover the
    text: four times the estimate reaches the length and overshoots it by
    less than four. *)
Theorem estimateTokens_bounds (text : jsstring) :
  0 <= estimateTokens text
  /\ strlen text <= 4 * estimateTokens text
  /\ 4 * estimateTokens text < strlen text + 4.
Proof.
  unfold estimateTokens, ceil_div. pose proof (strlen_nonneg text) as Hlen.
  repeat split; Z.to_euclidean_division_equations; lia.
Qed.

Lemma truncateIfNeeded_size_over request :
  strlen (prompt request ++ default [] (context request)) > 1520000 ->
  strlen (prompt (truncateIfNeeded request)
          ++ default [] (context (truncateIfNeeded request))) <= 1520014.
Proof.
  intros Hover.
  rewrite (truncateIfNeeded_over request) by (apply estimateTokens_over, Hover).
  rewrite strlen_app in Hover |- *. simpl.
  pose proof (strlen_nonneg (prompt request)) as Hp.
  destruct (context request) as [ctx |]; simpl in *.
  - pose proof (strlen_nonneg ctx) as Hc.
    destruct ctx as [| c ctx]; simpl str_truthy; cbv iota; simpl default.
    + rewrite (gtb_true (strlen (prompt request)) 1520000)
        by (change (strlen []) with 0 in Hover; lia).
      rewrite strlen_app, strlen_marker, strlen_substring_prefix by lia.
      change (strlen []) with 0. lia.
    + rewrite (strlen_app (substring _ _ _)), strlen_marker,
        strlen_substring_prefix by lia.
      destruct (Z.le_gt_cases (strlen (prompt request)) 1520000) as [Hs | Hl].
      * rewrite (gtb_false _ _ Hs). lia.
      * rewrite (gtb_true (strlen (prompt request)) 1520000) by lia.
        rewrite strlen_app, strlen_marker, strlen_substring_prefix by lia. lia.
  - change (strlen []) with 0 in *.
    rewrite (gtb_true (strlen (prompt request)) 1520000) by lia.
    rewrite strlen_app, strlen_marker, strlen_substring_prefix by lia. lia.
Qed.

Lemma strlen_repeat (c : N) (n : N) : strlen (repeat c (N.to_nat n)) = Z.of_N n.
Proof. unfold strlen. rewrite repeat_length, N_nat_Z. reflexivity. Qed.

(** A prompt one code unit short of the budget and a context of two. *)
Lemma truncateIfNeeded_still_over (p : jsstring) :
  strlen p = 1519999 ->
  let request :=
    mkRequest p (Some (js "BB"))
      (JString (js "gpt-5")) (JString (js "medium"))
      (JString (js "standard")) None None in
  let result := truncateIfNeeded request in
  context result = Some (js "B...[truncated]")
  /\ strlen (prompt result ++ default [] (context result)) = 1520014
  /\ estimateTokens (prompt result ++ default [] (context result)) = 380004.
Proof.
  intros Hp request result.
  assert (Hres : result
    = mkRequest p (Some (js "B...[truncated]"))
        (JString (js "gpt-5")) (JString (js "medium"))
        (JString (js "standard")) None None).
  { subst result request. rewrite truncateIfNeeded_over.
    - cbn [prompt context model verbosity reasoning_effort max_tokens temperature].
      rewrite (gtb_false (strlen p) 1520000) by lia.
      rewrite Hp. reflexivity.
    - apply estimateTokens_over.
      cbn [prompt context]. rewrite strlen_app, Hp. reflexivity. }
  rewrite Hres. cbn [prompt context]. 
  assert (Hlen : strlen (p ++ default [] (Some (js "B...[truncated]"))) = 1520014).
  { rewrite strlen_app, Hp. reflexivity. }
  repeat split; [exact Hlen |].
  unfold estimateTokens. rewrite Hlen. reflexivity.
Qed.

(** After the call the request has at most 1,520,014 code units, which is
    an estimate of at most 380,004 tokens, and there are requests for
    which it has exactly that many: the marker is appended after the cut,
    so the result can stay over the limit of 380,000 tokens, by up to
    four. *)
Theorem truncateIfNeeded_result_size :
  (forall request,
     let result := truncateIfNeeded request in
     strlen (prompt result ++ default [] (context result)) <= 1520014
     /\ estimateTokens (prompt result ++ default [] (context result)) <= 380004)
  /\ (exists request,
        let result := truncateIfNeeded request in
        strlen (prompt result ++ default [] (context result)) = 1520014
        /\ estimateTokens (prompt result ++ default [] (context result)) = 380004).
Proof.
  split.
  - intros request result.
    assert (Hsize :
      strlen (prompt result ++ default [] (context result)) <= 1520014).
    { subst result.
      destruct (Z.le_gt_cases
                  (strlen (prompt request ++ default [] (context request)))
                  1520000) as [Hfits | Hover].
      - rewrite (truncateIfNeeded_fits request Hfits). lia.
      - apply truncateIfNeeded_size_over. lia. }
    split; [exact Hsize |].
    unfold estimateTokens, ceil_div. Z.to_euclidean_division_equations. lia.
  - exists (mkRequest (repeat 65%N (N.to_nat 1519999)) (Some (js "BB"))
              (JString (js "gpt-5")) (JString (js "medium"))
              (JString (js "standard")) None None).
    apply (truncateIfNeeded_still_over (repeat 65%N (N.to_nat 1519999))
             (strlen_repeat 65 1519999)).
Qed.

(** Truncating twice is truncating once. A context that was cut is cut
    again at the same place, where the marker begins, and gets the same
    marker; a prompt that was cut fits the budget afterwards. *)
Theorem truncateIfNeeded_idempotent request :
  truncateIfNeeded (truncateIfNeeded request) = truncateIfNeeded request.
Proof.
  destruct (Z.le_gt_cases
              (strlen (prompt request ++ default [] (context request)))
              1520000) as [Hfits | Hover].
  { rewrite (truncateIfNeeded_fits request Hfits).
    apply truncateIfNeeded_fits, Hfits. }
  assert (Hover' : strlen (prompt request ++ default [] (context request)) > 1520000)
    by lia. clear Hover.
  rewrite (truncateIfNeeded_over request) by (apply estimateTokens_over, Hover').
  rewrite strlen_app in Hover'.
  pose proof (strlen_nonneg (prompt request)) as Hp.
  destruct request as [p ctx m v e mt t]; simpl in *.
  destruct ctx as [[| c ctx] |]; simpl in *.
  - (* empty context: the prompt alone is over the budget *)
    change (strlen []) with 0 in Hover'.
    rewrite (gtb_true (strlen p) 1520000) by lia.
    apply truncateIfNeeded_fits. simpl.
    rewrite app_nil_r, strlen_app, strlen_marker, strlen_substring_prefix by lia.
    lia.
  - pose proof (strlen_nonneg (c :: ctx)) as Hc.
    destruct (Z.le_gt_cases (strlen p) 1520000) as [Hs | Hl].
    + (* the context is cut, the prompt is kept *)
      rewrite (gtb_false _ _ Hs).
      set (kept := substring (c :: ctx) 0 (Z.max 0 (1520000 - strlen p))).
      assert (Hkept : strlen kept = 1520000 - strlen p).
      { subst kept. rewrite strlen_substring_prefix by lia. lia. }
      rewrite truncateIfNeeded_over.
      2:{ apply estimateTokens_over. simpl.
          rewrite !strlen_app, strlen_marker. lia. }
      simpl. rewrite (gtb_false _ _ Hs).
      assert (Htruthy : str_truthy (kept ++ marker) = true).
      { destruct kept; reflexivity. }
      rewrite Htruthy. do 2 f_equal. f_equal.
      rewrite substring_prefix by lia.
      replace (Z.to_nat (Z.max 0 (1520000 - strlen p))) with (length kept)
        by (rewrite <- (Nat2Z.id (length kept)); fold (strlen kept); lia).
      apply take_app_length.
    + (* both are cut: what is left fits *)
      rewrite (gtb_true (strlen p) 1520000) by lia.
      apply truncateIfNeeded_fits. simpl.
      rewrite !strlen_app, strlen_marker, !strlen_substring_prefix by lia.
      lia.
  - change (strlen []) with 0 in Hover'.
    rewrite (gtb_true (strlen p) 1520000) by lia.
    apply truncateIfNeeded_fits. simpl.
    rewrite app_nil_r, strlen_app, strlen_marker, strlen_substring_prefix by lia.
    lia.
Qed.

End TruncationMore.

(** ** validateRequest *)

Section ClampFacts.

Variables lo hi : Qc.
Hypothesis lo_le_hi : (lo <= hi)%Qc.

Lemma clamp_range (x : number) :
  x <> NaN ->
  exists q, Math_min (Math_max x (Fin lo)) (Fin hi) = Fin q
            /\ (lo <= q)%Qc /\ (q <= hi)%Qc.
Proof using lo_le_hi.
  intros Hx. unfold Math_min, Math_max.
  destruct x as [| | | q]; [contradiction | | |]; simpl.
  - exists hi. repeat split; [assumption | apply Qcle_refl].
  - rewrite (bool_decide_eq_true_2 _ lo_le_hi).
    exists lo. repeat split; [apply Qcle_refl | assumption].
  - destruct (bool_decide_reflect (q <= lo)%Qc) as [Hlow | Hlow]; simpl.
    + rewrite (bool_decide_eq_true_2 _ lo_le_hi).
      exists lo. repeat split; [apply Qcle_refl | assumption].
    + apply Qcnot_le_lt, Qclt_le_weak in Hlow.
      destruct (bool_decide_reflect (q <= hi)%Qc) as [Hhigh | Hhigh].
      * exists q. repeat split; assumption.
      * exists hi. repeat split; [assumption | apply Qcle_refl].
Qed.

Lemma clamp_inside (q : Qc) :
  (lo <= q)%Qc -> (q <= hi)%Qc ->
  Math_min (Math_max (Fin q) (Fin lo)) (Fin hi) = Fin q.
Proof.
  intros Hlow Hhigh. unfold Math_min, Math_max. simpl.
  destruct (bool_decide_reflect (q <= lo)%Qc) as [Hle | Hnle]; simpl.
  - assert (q = lo) as -> by (apply Qcle_antisym; assumption).
    rewrite (bool_decide_eq_true_2 _ Hhigh). reflexivity.
  - rewrite (bool_decide_eq_true_2 _ Hhigh). reflexivity.
Qed.

End ClampFacts.

Section ValidationMore.

Variable config : ServerConfig.

Implicit Types (rawRequest : JsVal) (request : GPT5QueryRequest).

Lemma buildRequest_context rawRequest :
  context (buildRequest config rawRequest)
  = if truthy (get rawRequest "context")
       && JsType_eqb (typeof (get rawRequest "context")) TString
    then Some (sanitizeText (the_string (get rawRequest "context")))
    else None.
Proof.
  unfold buildRequest. cbv zeta.
  repeat match goal with |- context [if ?c then _ else _] =>
    destruct c end; reflexivity.
Qed.

Lemma buildRequest_temperature rawRequest :
  temperature (buildRequest config rawRequest)
  = if negb (is_undefined (get rawRequest "temperature"))
       && JsType_eqb (typeof (get rawRequest "temperature")) TNumber
    then Some (Math_min
                 (Math_max (the_number (get rawRequest "temperature")) (ofZ 0))
                 (ofZ 2))
    else None.
Proof.
  unfold buildRequest. cbv zeta.
  repeat match goal with |- context [if ?c then _ else _] =>
    destruct c end; reflexivity.
Qed.

(** Both text fields of a validated request are sanitized: no null byte,
    no code unit of U+0001..U+001F or U+007F, at most 100,000 code
    units. *)
Theorem validateRequest_text_fields rawRequest request :
  validateRequest config rawRequest = inr request ->
  let sanitized (s : jsstring) :=
    Forall (fun c => c <> 0%N /\ ~ (1 <= c <= 31)%N /\ c <> 127%N) s
    /\ strlen s <= 100000 in
  sanitized (prompt request)
  /\ (forall ctx, context request = Some ctx -> sanitized ctx).
Proof.
  intros Hok sanitized.
  assert (Hsan : forall text, sanitized (sanitizeText text)).
  { intros text. split; [| apply sanitizeText_length].
    pose proof (sanitizeText_no_nul text) as Hnul.
    pose proof (sanitizeText_no_control text) as Hctl.
    rewrite List.Forall_forall in Hnul, Hctl |- *.
    intros c Hin. specialize (Hnul c Hin). specialize (Hctl c Hin).
    unfold isNul in Hnul. unfold isControl in Hctl.
    apply negb_true_iff in Hnul, Hctl.
    apply N.eqb_neq in Hnul.
    apply orb_false_iff in Hctl as [Hrange Hdel].
    apply N.eqb_neq in Hdel.
    repeat split; [assumption | | assumption].
    intros [H1 H31].
    apply N.leb_le in H1, H31. rewrite H1, H31 in Hrange. discriminate. }
  apply validateRequest_accepts_iff in Hok as (_ & _ & ->).
  split.
  - destruct (buildRequest_fields config rawRequest) as (-> & _). apply Hsan.
  - intros ctx. rewrite buildRequest_context.
    destruct (_ && _); [| discriminate].
    intros [= <-]. apply Hsan.
Qed.

Lemma validateRequest_sanitized_lengths rawRequest request :
  validateRequest config rawRequest = inr request ->
  strlen (prompt request) <= 100000
  /\ (forall ctx, context request = Some ctx -> strlen ctx <= 100000).
Proof.
  intros Hok.
  apply validateRequest_accepts_iff in Hok as (_ & _ & ->).
  split.
  - destruct (buildRequest_fields config rawRequest) as (-> & _).
    apply sanitizeText_length.
  - intros ctx. rewrite buildRequest_context.
    match goal with |- context [if ?cond then _ else _] => destruct cond end;
      [| discriminate].
    intros [= <-]. apply sanitizeText_length.
Qed.

(** A request that comes out of [validateRequest] is never truncated:
    its prompt and context have at most 100,000 code units each, far
    below the 1,520,000 at which [truncateIfNeeded] starts to cut. *)
Theorem validateRequest_never_truncated rawRequest request :
  validateRequest config rawRequest = inr request ->
  truncateIfNeeded request = request.
Proof.
  intros Hok.
  destruct (validateRequest_sanitized_lengths rawRequest request Hok)
    as (Hp & Hctx).
  apply truncateIfNeeded_fits. rewrite strlen_app.
  destruct (context request) as [ctx |]; simpl.
  - pose proof (Hctx ctx eq_refl) as Hc. lia.
  - change (strlen []) with 0. lia.
Qed.

Lemma validateRequest_max_tokens_truthy rawRequest request (n : number) :
  validateRequest config rawRequest = inr request ->
  max_tokens request = Some n -> num_truthy n = true.
Proof.
  intros Hok.
  apply validateRequest_accepts_iff in Hok as (_ & _ & ->).
  rewrite buildRequest_max_tokens.
  match goal with |- context [if ?cond then _ else _] =>
    destruct cond eqn:Hcond end; [| discriminate].
  apply andb_true_iff in Hcond as [Htruthy Htype].
  destruct (get rawRequest "max_tokens") as [| | b | x | s | items | props];
    try discriminate.
  cbn [the_number truthy] in Htruthy |- *. intros [= <-].
  destruct (clamp_range (Q2Qc 1) (Q2Qc 128000)) with (x := x)
    as (q & Hq & Hlow & _).
  - discriminate.
  - intros ->. discriminate.
  - change (ofZ 1) with (Fin (Q2Qc 1)).
    change (ofZ 128000) with (Fin (Q2Qc 128000)). rewrite Hq.
    cbn [num_truthy]. apply negb_true_iff, bool_decide_eq_false. intros ->.
    apply Qcle_not_lt in Hlow. apply Hlow. reflexivity.
Qed.

(** The numbers of a validated request are in range: [max_tokens], when
    present, lies in [1, 128000]; [temperature], when present, lies in
    [0, 2] or is the NaN that came in. *)
Theorem validateRequest_numbers_in_range rawRequest request :
  validateRequest config rawRequest = inr request ->
  (forall n, max_tokens request = Some n ->
     exists q, n = Fin q /\ (Q2Qc 1 <= q)%Qc /\ (q <= Q2Qc 128000)%Qc)
  /\ (forall t, temperature request = Some t ->
        (t = NaN /\ get rawRequest "temperature" = JNumber NaN)
        \/ exists q, t = Fin q /\ (Q2Qc 0 <= q)%Qc /\ (q <= Q2Qc 2)%Qc).
Proof.
  intros Hok.
  apply validateRequest_accepts_iff in Hok as (_ & _ & ->).
  split.
  - intros n. rewrite buildRequest_max_tokens.
    destruct (get rawRequest "max_tokens") as [| | b | x | s | items | props];
      simpl; try discriminate;
      try (rewrite andb_false_r; discriminate).
    rewrite andb_true_r.
    destruct (num_truthy x) eqn:Hx; [| discriminate].
    intros [= <-].
    destruct (clamp_range (Q2Qc 1) (Q2Qc 128000)) with (x := x)
      as (q & Hq & Hlow & Hhigh).
    + discriminate.
    + intros ->. discriminate.
    + exists q. repeat split; assumption.
  - intros t. rewrite buildRequest_temperature.
    destruct (get rawRequest "temperature") as [| | b | x | s | items | props];
      simpl; try discriminate.
    intros [= <-].
    destruct x as [| | | q0] eqn:Hx.
    + left. split; reflexivity.
    + right. destruct (clamp_range (Q2Qc 0) (Q2Qc 2)) with (x := PosInf)
        as (q & Hq & Hlow & Hhigh); [discriminate | discriminate |].
      exists q. repeat split; assumption.
    + right. destruct (clamp_range (Q2Qc 0) (Q2Qc 2)) with (x := NegInf)
        as (q & Hq & Hlow & Hhigh); [discriminate | discriminate |].
      exists q. repeat split; assumption.
    + right. destruct (clamp_range (Q2Qc 0) (Q2Qc 2)) with (x := Fin q0)
        as (q & Hq & Hlow & Hhigh); [discriminate | discriminate |].
      exists q. repeat split; assumption.
Qed.

(** Numbers that are in range already pass unchanged, with one
    difference between the two fields: a [temperature] of 0 is kept,
    while [max_tokens] has no 0 to keep since its range starts at 1. *)
Theorem validateRequest_keeps_in_range rawRequest request (q : Qc) :
  validateRequest config rawRequest = inr request ->
  (get rawRequest "max_tokens" = JNumber (Fin q) ->
   (Q2Qc 1 <= q)%Qc -> (q <= Q2Qc 128000)%Qc ->
   max_tokens request = Some (Fin q))
  /\ (get rawRequest "temperature" = JNumber (Fin q) ->
      (Q2Qc 0 <= q)%Qc -> (q <= Q2Qc 2)%Qc ->
      temperature request = Some (Fin q)).
Proof.
  intros Hok.
  apply validateRequest_accepts_iff in Hok as (_ & _ & ->).
  split.
  - intros Hx Hlow Hhigh. rewrite buildRequest_max_tokens, Hx. simpl.
    assert (Hnz : bool_decide (q = Q2Qc 0) = false).
    { apply bool_decide_eq_false. intros ->.
      apply Qcle_not_lt in Hlow. apply Hlow. reflexivity. }
    rewrite Hnz. simpl.
    f_equal. apply clamp_inside; assumption.
  - intros Hx Hlow Hhigh. rewrite buildRequest_temperature, Hx. simpl.
    f_equal. apply clamp_inside; assumption.
Qed.

End ValidationMore.

Lemma validateRequest_complexRequest :
  validateRequest testConfig complexRawRequest = inr complexRequest.
Proof. vm_compute. reflexivity. Qed.

Lemma validateRequest_text_fields_witness :
  strlen (prompt complexRequest) <= 100000
  /\ Forall (fun c => c <> 0%N /\ ~ (1 <= c <= 31)%N /\ c <> 127%N)
       (js "Test context").
Proof.
  destruct (validateRequest_text_fields testConfig complexRawRequest
              complexRequest validateRequest_complexRequest)
    as ((_ & Hlen) & Hctx).
  split; [exact Hlen |].
  exact (proj1 (Hctx (js "Test context") eq_refl)).
Defined.

Lemma validateRequest_never_truncated_witness :
  truncateIfNeeded complexRequest = complexRequest.
Proof.
  exact (validateRequest_never_truncated testConfig complexRawRequest
           complexRequest validateRequest_complexRequest).
Defined.

Lemma validateRequest_numbers_in_range_witness :
  exists q, ofZ 1000 = Fin q /\ (Q2Qc 1 <= q)%Qc /\ (q <= Q2Qc 128000)%Qc.
Proof.
  exact (proj1 (validateRequest_numbers_in_range testConfig complexRawRequest
                  complexRequest validateRequest_complexRequest)
           (ofZ 1000) eq_refl).
Defined.

(** [{ prompt: "Test prompt", max_tokens: 1, temperature: 0 }] *)
Lemma validateRequest_keeps_in_range_witness :
  let rawRequest :=
    JObject {[ "prompt" := JString (js "Test prompt");
               "max_tokens" := JNumber (ofZ 1);
               "temperature" := JNumber (ofZ 0) ]} in
  let request :=
    mkRequest (js "Test prompt") None (JString (js "gpt-5-nano"))
      (JString (js "medium")) (JString (js "standard"))
      (Some (ofZ 1)) (Some (ofZ 0)) in
  validateRequest testConfig rawRequest = inr request
  /\ max_tokens request = Some (ofZ 1)
  /\ temperature request = Some (ofZ 0).
Proof.
  intros rawRequest request.
  assert (Hok : validateRequest testConfig rawRequest = inr request)
    by (vm_compute; reflexivity).
  split; [exact Hok |]. split.
  - apply (proj1 (validateRequest_keeps_in_range testConfig rawRequest request
                    (Q2Qc 1) Hok)).
    + vm_compute. reflexivity.
    + apply Qcle_refl.
    + vm_compute. discriminate.
  - apply (proj2 (validateRequest_keeps_in_range testConfig rawRequest request
                    (Q2Qc 0) Hok)).
    + vm_compute. reflexivity.
    + apply Qcle_refl.
    + vm_compute. discriminate.
Defined.

(** ** sanitizeText *)

Section SanitizeMore.

Implicit Types s text : jsstring.

Lemma trimStart_drop s : exists k, trimStart s = drop k s.
Proof.
  induction s as [| c s IH]; simpl.
  - exists 0%nat. reflexivity.
  - destruct (isWhiteSpace c).
    + destruct IH as [k ->]. exists (S k). reflexivity.
    + exists 0%nat. reflexivity.
Qed.

Lemma trimEnd_take s : exists m, trimEnd s = take m s.
Proof.
  unfold trimEnd. destruct (trimStart_drop (rev s)) as [k ->].
  exists (length s - k)%nat.
  rewrite List.skipn_rev, rev_involutive. reflexivity.
Qed.

(** [trim] returns one contiguous piece of its argument. *)
Lemma trim_piece s : exists k m, trim s = take m (drop k s).
Proof.
  unfold trim. destruct (trimStart_drop s) as [k ->].
  destruct (trimEnd_take (drop k s)) as [m ->]. exists k, m. reflexivity.
Qed.

Lemma trim_sublist s : trim s `sublist_of` s.
Proof.
  destruct (trim_piece s) as (k & m & ->).
  transitivity (drop k s); [apply sublist_take | apply sublist_drop].
Qed.

Lemma filter_sublist (f : N -> bool) s : List.filter f s `sublist_of` s.
Proof.
  induction s as [| c s IH]; simpl; [constructor |].
  destruct (f c); [apply sublist_skip | apply sublist_cons]; exact IH.
Qed.

(** A piece of the same length is the whole. *)
Lemma trim_same_length s : length (trim s) = length s -> trim s = s.
Proof.
  destruct (trim_piece s) as (k & m & ->). intros Hlen.
  destruct s as [| c s]; [rewrite drop_nil; apply take_nil |].
  rewrite length_take, length_drop in Hlen. simpl length in Hlen.
  assert (k = 0)%nat as -> by lia. rewrite drop_0 in *.
  apply take_ge. simpl length. lia.
Qed.

(** [sanitizeText] only deletes: what it returns is the input with some
    code units left out, in the original order. It never inserts,
    replaces or reorders anything. *)
Theorem sanitizeText_sublist text : sanitizeText text `sublist_of` text.
Proof.
  unfold sanitizeText. rewrite substring_prefix by lia.
  etransitivity; [apply sublist_take |].
  etransitivity; [apply filter_sublist |].
  etransitivity; [apply filter_sublist |].
  apply trim_sublist.
Qed.

(** The texts that [sanitizeText] returns unchanged are exactly those with
    no null byte and no control character, at most 100,000 code units,
    and no white space at either end. *)
Theorem sanitizeText_fixed_points text :
  sanitizeText text = text
  <-> Forall (fun c => isNul c = false /\ isControl c = false) text
      /\ strlen text <= 100000
      /\ trim text = text.
Proof.
  split.
  - intros Hfix. repeat split.
    + pose proof (sanitizeText_no_nul text) as Hnul.
      pose proof (sanitizeText_no_control text) as Hctl.
      rewrite Hfix in Hnul, Hctl.
      rewrite List.Forall_forall in Hnul, Hctl |- *.
      intros c Hin. specialize (Hnul c Hin). specialize (Hctl c Hin).
      apply negb_true_iff in Hnul, Hctl. split; assumption.
    + rewrite <- Hfix. apply sanitizeText_length.
    + apply trim_same_length.
      pose proof (trim_length text) as Hle.
      assert (Hsub : (length (sanitizeText text) <= length (trim text))%nat).
      { unfold sanitizeText. rewrite substring_prefix by lia.
        apply sublist_length.
        etransitivity; [apply sublist_take |].
        etransitivity; apply filter_sublist. }
      rewrite Hfix in Hsub. lia.
  - intros (Hclean & Hlen & Htrim).
    rewrite sanitizeText_clean, Htrim; [reflexivity | | | assumption].
    + eapply List.Forall_impl; [| exact Hclean].
      intros c [-> _]. reflexivity.
    + eapply List.Forall_impl; [| exact Hclean].
      intros c [_ ->]. reflexivity.
Qed.

End SanitizeMore.

(** ** Response formatting: blank lines and fences *)

Section FormatterMore.

Implicit Types s text : jsstring.

(** *** Blank lines *)

Lemma startsWith_cons (a b : N) p s :
  startsWith (a :: p) (b :: s) = (a =? b)%N && startsWith p s.
Proof. reflexivity. Qed.

Lemma includes_cons p (c : N) s :
  includes p (c :: s) = startsWith p (c :: s) || includes p s.
Proof. reflexivity. Qed.

Lemma startsWith_LF_more p s :
  startsWith [LF] s = false -> startsWith (LF :: p) s = false.
Proof.
  destruct s as [| d s]; [reflexivity |].
  rewrite !startsWith_cons. intros H. rewrite andb_true_r in H.
  rewrite H. reflexivity.
Qed.

Lemma collapseBlankLines_runs s : forall run,
  (run <= 2)%nat ->
  includes [LF; LF; LF] (collapseBlankLines run s) = false
  /\ startsWith (repeat LF (3 - run)) (collapseBlankLines run s) = false.
Proof.
  induction s as [| c s IH]; intros run Hrun.
  - simpl. split; [reflexivity |].
    destruct run as [| [| [| run]]]; try reflexivity. lia.
  - simpl collapseBlankLines.
    destruct (N.eqb_spec c LF) as [-> | Hc].
    + destruct run as [| [| [| run]]]; [| | | lia].
      * destruct (IH 1%nat) as [Hinc Hstart]; [lia |].
        change (1 <? 2)%nat with true. change (0 <? 2)%nat with true. cbv iota.
        change (repeat LF (3 - 1)) with [LF; LF] in Hstart.
        change (repeat LF (3 - 0)) with [LF; LF; LF].
        rewrite includes_cons, !startsWith_cons, N.eqb_refl, Hinc.
        rewrite !andb_true_l, Hstart. split; reflexivity.
      * destruct (IH 2%nat) as [Hinc Hstart]; [lia |].
        change (1 <? 2)%nat with true. cbv iota.
        change (repeat LF (3 - 2)) with [LF] in Hstart.
        change (repeat LF (3 - 1)) with [LF; LF].
        rewrite includes_cons, !startsWith_cons, N.eqb_refl, Hinc.
        rewrite !andb_true_l, Hstart.
        rewrite (startsWith_LF_more [LF] _ Hstart). split; reflexivity.
      * change (2 <? 2)%nat with false. cbv iota. apply IH. lia.
    + destruct (IH 0%nat) as [Hinc Hstart]; [lia |].
      assert (Hne : (LF =? c)%N = false) by (apply N.eqb_neq; congruence).
      split.
      * rewrite includes_cons, startsWith_cons, Hne, Hinc. reflexivity.
      * destruct run as [| [| [| run]]]; [| | | lia];
          simpl repeat; rewrite startsWith_cons, Hne; reflexivity.
Qed.

Lemma collapseBlankLines_fresh s (run : nat) :
  startsLF s = false -> collapseBlankLines run s = collapseBlankLines 0 s.
Proof.
  destruct s as [| c s]; [reflexivity |]. simpl. intros ->. reflexivity.
Qed.

Lemma header_collapse s :
  startsLF s = false ->
  header ++ collapseBlankLines 0 s = collapseBlankLines 0 (header ++ s).
Proof.
  intros Hs. unfold header. simpl.
  rewrite (collapseBlankLines_fresh s 2 Hs). reflexivity.
Qed.

(** *** What the text begins with *)

Lemma trimStart_head s : startsLF (trimStart s) = false.
Proof.
  induction s as [| c s IH]; [reflexivity |]. simpl.
  destruct (isWhiteSpace c) eqn:Hc; [exact IH |].
  simpl. apply N.eqb_neq. intros ->. discriminate.
Qed.

Lemma take_head s (m : nat) : startsLF s = false -> startsLF (take m s) = false.
Proof. destruct s, m; simpl; auto. Qed.

Lemma trim_head s : startsLF (trim s) = false.
Proof.
  unfold trim. destruct (trimEnd_take (trimStart s)) as [m ->].
  apply take_head, trimStart_head.
Qed.

(** The two scans, one step at a time. *)
Lemma tagFences_0 (c : N) s :
  tagFences 0 (c :: s)
  = if startsWith [96; 96; 96; LF]%N (c :: s)
       && negb (languageTagAhead (drop 4 (c :: s)))
    then [96; 96; 96; 116; 101; 120; 116; LF]%N ++ tagFences 3 s
    else c :: tagFences 0 s.
Proof. reflexivity. Qed.

Lemma tagFences_S (k : nat) (c : N) s : tagFences (S k) (c :: s) = tagFences k s.
Proof. reflexivity. Qed.

Lemma countFences_0 (c : N) s :
  countFences 0 (c :: s)
  = if startsWith [96; 96; 96]%N (c :: s)
    then S (countFences 2 s)
    else countFences 0 s.
Proof. reflexivity. Qed.

Lemma countFences_S (k : nat) (c : N) s :
  countFences (S k) (c :: s) = countFences k s.
Proof. reflexivity. Qed.

Lemma startsWith_inv (a : N) p s :
  startsWith (a :: p) s = true -> exists s', s = a :: s' /\ startsWith p s' = true.
Proof.
  destruct s as [| b s]; [discriminate |].
  rewrite startsWith_cons. intros H.
  apply andb_true_iff in H as [Hab Hp].
  apply N.eqb_eq in Hab as ->. exists s. split; [reflexivity | assumption].
Qed.

Lemma tagFences_head s : startsLF (tagFences 0 s) = startsLF s.
Proof.
  destruct s as [| c s]; [reflexivity |]. rewrite tagFences_0.
  match goal with |- context [if ?cond then _ else _] =>
    destruct cond eqn:Hfence end; [| reflexivity].
  apply andb_true_iff in Hfence as [Hfence _].
  apply startsWith_inv in Hfence as (s' & [= -> _] & _). reflexivity.
Qed.

Lemma formatCodeBlocks_head s : startsLF (formatCodeBlocks s) = startsLF s.
Proof.
  unfold formatCodeBlocks. cbv zeta. rewrite tagFences_head.
  destruct s as [| c s]; [reflexivity |].
  destruct (negb _); reflexivity.
Qed.

Section WithHost.

Variable toLowerCase : jsstring -> jsstring.

(** The content never has three line feeds in a row: not in the
    placeholder, not in the body, and not where the header, which ends
    with two, meets the body. *)
Theorem formatResponseContent_no_blank_run text :
  includes [LF; LF; LF] (formatResponseContent toLowerCase text) = false.
Proof.
  unfold formatResponseContent.
  destruct text as [| c text]; [reflexivity |].
  simpl negb. cbv iota zeta.
  set (formatted := if containsCode toLowerCase (trim (c :: text))
                    then formatCodeBlocks (trim (c :: text))
                    else trim (c :: text)).
  assert (Hhead : startsLF formatted = false).
  { subst formatted. destruct (containsCode _ _).
    - rewrite formatCodeBlocks_head. apply trim_head.
    - apply trim_head. }
  rewrite (header_collapse formatted Hhead).
  apply (collapseBlankLines_runs (header ++ formatted) 0). lia.
Qed.

End WithHost.

End FormatterMore.

(** *** Fences *)

Section Fences.

Implicit Types s text : jsstring.

Lemma runFences_cons (seen : nat) (c : N) s :
  runFences seen (c :: s)
  = if (c =? 96)%N
    then if (seen =? 2)%nat then S (runFences 0 s) else runFences (S seen) s
    else runFences 0 s.
Proof. reflexivity. Qed.

(** Backticks that are too few to complete a fence count for nothing. *)
Lemma runFences_stray_2 s :
  startsWith [96%N] s = false -> runFences 2 s = runFences 0 s.
Proof.
  destruct s as [| c s]; [reflexivity |].
  rewrite startsWith_cons, andb_true_r, N.eqb_sym. intros Hc.
  rewrite !runFences_cons, Hc. reflexivity.
Qed.

Lemma runFences_stray_1 s :
  startsWith [96; 96]%N s = false -> runFences 1 s = runFences 0 s.
Proof.
  destruct s as [| c s]; [reflexivity |].
  rewrite startsWith_cons, N.eqb_sym. intros H.
  rewrite !runFences_cons.
  destruct (c =? 96)%N; [| reflexivity].
  rewrite andb_true_l in H.
  change (1 =? 2)%nat with false. change (0 =? 2)%nat with false. cbv iota.
  destruct s as [| d s]; [reflexivity |].
  rewrite startsWith_cons, andb_true_r, N.eqb_sym in H.
  rewrite !runFences_cons, H. reflexivity.
Qed.

(** The scan of the pattern, which looks ahead, and the count of the
    backticks read, which looks back, find the same fences. *)
Lemma countFences_runFences_bounded (n : nat) : forall s,
  (length s <= n)%nat -> countFences 0 s = runFences 0 s.
Proof.
  induction n as [| n IH]; intros s Hlen.
  - destruct s; [reflexivity | simpl in Hlen; lia].
  - destruct s as [| c s]; [reflexivity |].
    simpl in Hlen. rewrite countFences_0.
    destruct (startsWith [96; 96; 96]%N (c :: s)) eqn:Hfence.
    + apply startsWith_inv in Hfence as (s1 & [= -> ->] & Hfence).
      apply startsWith_inv in Hfence as (s2 & -> & Hfence).
      apply startsWith_inv in Hfence as (s3 & -> & _).
      rewrite !countFences_S. rewrite !runFences_cons.
      change (96 =? 96)%N with true. cbv iota.
      change (0 =? 2)%nat with false. change (1 =? 2)%nat with false.
      change (2 =? 2)%nat with true. cbv iota.
      f_equal. apply IH. simpl in Hlen. lia.
    + rewrite IH by lia. rewrite runFences_cons.
      destruct (N.eqb_spec c 96) as [-> | Hc]; [| reflexivity].
      change (0 =? 2)%nat with false. cbv iota.
      symmetry. apply runFences_stray_1.
      rewrite startsWith_cons in Hfence. exact Hfence.
Qed.

Lemma countFences_runFences s : countFences 0 s = runFences 0 s.
Proof. apply (countFences_runFences_bounded (length s)). lia. Qed.

(** Anything but a backtick ends a row of backticks. *)
Lemma runFences_other (seen : nat) (c : N) s :
  c <> 96%N -> runFences seen (c :: s) = runFences 0 s.
Proof.
  intros Hc. rewrite runFences_cons.
  destruct (N.eqb_spec c 96); [contradiction | reflexivity].
Qed.

Lemma runFences_app_other s (c : N) : forall (seen : nat) (t : jsstring),
  c <> 96%N ->
  runFences seen (s ++ c :: t) = (runFences seen s + runFences 0 t)%nat.
Proof.
  induction s as [| d s IH]; intros seen t Hc.
  - simpl app. rewrite runFences_other by assumption. reflexivity.
  - simpl app. rewrite !runFences_cons.
    destruct (d =? 96)%N; [destruct (seen =? 2)%nat |];
      rewrite IH by assumption; reflexivity.
Qed.

Lemma runFences_app_LF s (seen : nat) (t : jsstring) :
  runFences seen (s ++ LF :: t) = (runFences seen s + runFences 0 t)%nat.
Proof. apply runFences_app_other. unfold LF. lia. Qed.

(** Labelling a fence puts "text" between a backtick and a line feed: the
    rows of backticks stay what they were. *)
Lemma tagFences_runFences_bounded (n : nat) : forall s,
  (length s <= n)%nat ->
  forall seen : nat, runFences seen (tagFences 0 s) = runFences seen s.
Proof.
  induction n as [| n IH]; intros s Hlen seen.
  - destruct s; [reflexivity | simpl in Hlen; lia].
  - destruct s as [| c s]; [reflexivity |].
    simpl in Hlen. rewrite tagFences_0.
    match goal with |- context [if ?cond then _ else _] =>
      destruct cond eqn:Hfence end.
    + apply andb_true_iff in Hfence as [Hfence _].
      apply startsWith_inv in Hfence as (s1 & [= -> ->] & Hfence).
      apply startsWith_inv in Hfence as (s2 & -> & Hfence).
      apply startsWith_inv in Hfence as (s3 & -> & Hfence).
      apply startsWith_inv in Hfence as (s4 & -> & _).
      rewrite !tagFences_S.
      change ([96; 96; 96; 116; 101; 120; 116; LF]%N ++ tagFences 0 s4)
        with ([96; 96; 96]%N ++ 116%N :: 101%N :: 120%N :: 116%N :: LF
                :: tagFences 0 s4).
      change (96%N :: 96%N :: 96%N :: LF :: s4)
        with ([96; 96; 96]%N ++ LF :: s4).
      rewrite !runFences_app_other by (unfold LF; lia).
      rewrite (runFences_other _ 101), (runFences_other _ 120),
        (runFences_other _ 116), (runFences_other _ LF) by (unfold LF; lia).
      simpl in Hlen. rewrite (IH s4) by lia. reflexivity.
    + rewrite !runFences_cons.
      destruct (c =? 96)%N; [destruct (seen =? 2)%nat |];
        rewrite (IH s) by lia; reflexivity.
Qed.

Lemma tagFences_runFences s (seen : nat) :
  runFences seen (tagFences 0 s) = runFences seen s.
Proof. apply (tagFences_runFences_bounded (length s)). lia. Qed.

Lemma formatCodeBlocks_runFences s :
  (runFences 0 (formatCodeBlocks s) mod 2 = 0)%nat.
Proof.
  unfold formatCodeBlocks. cbv zeta. rewrite tagFences_runFences.
  destruct (Nat.eqb_spec (countFences 0 s mod 2) 0) as [Heven | Hodd];
    simpl negb; cbv iota.
  - rewrite <- countFences_runFences. exact Heven.
  - change ([LF] ++ js "```") with (LF :: js "```").
    rewrite runFences_app_LF, <- countFences_runFences.
    change (runFences 0 (js "```")) with 1%nat.
    pose proof (Nat.mod_upper_bound (countFences 0 s) 2) as Hlt.
    rewrite Nat.Div0.add_mod.
    assert (countFences 0 s mod 2 = 1)%nat as -> by lia.
    reflexivity.
Qed.

(** Whatever the text, [formatCodeBlocks] returns one whose fences, as
    the pattern [/```/g] counts them, are even in number: an odd count
    gets one closing fence on a line of its own, and labelling fences
    neither adds nor removes any. *)
Theorem formatCodeBlocks_even_fences s :
  (countFences 0 (formatCodeBlocks s) mod 2 = 0)%nat.
Proof. rewrite countFences_runFences. apply formatCodeBlocks_runFences. Qed.

(** Dropping line feeds from a run of three or more leaves the rows of
    backticks alone. *)
Lemma collapseBlankLines_runFences s : forall (run seen : nat),
  (run <> 0%nat -> seen = 0%nat) ->
  runFences seen (collapseBlankLines run s) = runFences seen s.
Proof.
  induction s as [| c s IH]; intros run seen Hrun; [reflexivity |].
  simpl collapseBlankLines.
  destruct (N.eqb_spec c LF) as [-> | Hc].
  - rewrite (runFences_other seen LF s) by (unfold LF; lia).
    destruct (Nat.ltb_spec run 2) as [Hlt | Hge].
    + rewrite runFences_other by (unfold LF; lia).
      apply IH. intros _. reflexivity.
    + rewrite (Hrun ltac:(lia)). apply IH. intros _. reflexivity.
  - rewrite !runFences_cons.
    destruct (c =? 96)%N; [destruct (seen =? 2)%nat |];
      rewrite IH by (intros H; contradiction); reflexivity.
Qed.

Lemma header_runFences s : runFences 0 (header ++ s) = runFences 0 s.
Proof.
  change (header ++ s)
    with (([55358; 56598]%N ++ js " **GPT-5 Response**" ++ [LF]) ++ LF :: s).
  rewrite runFences_app_LF. reflexivity.
Qed.

(** A non-empty text in which [containsCode] finds one of its indicators
    is returned with an even number of fences, header included. *)
Theorem formatResponseContent_even_fences
    (toLowerCase : jsstring -> jsstring) text :
  text <> [] ->
  containsCode toLowerCase (trim text) = true ->
  (countFences 0 (formatResponseContent toLowerCase text) mod 2 = 0)%nat.
Proof.
  intros Hne Hcode. unfold formatResponseContent.
  destruct text as [| c text]; [contradiction |].
  simpl negb. cbv iota zeta. rewrite Hcode.
  rewrite countFences_runFences, header_runFences.
  rewrite collapseBlankLines_runFences by (intros H; contradiction).
  apply formatCodeBlocks_runFences.
Qed.

End Fences.

(** One opening fence, never closed. *)
Lemma formatResponseContent_even_fences_witness :
  let text :=
    js "Here is some code:" ++ [LF] ++ js "```" ++ [LF]
    ++ js "function test() {" ++ [LF] ++ js "  return true;" ++ [LF] ++ js "}" in
  countFences 0 text = 1%nat
  /\ (countFences 0 (formatResponseContent toLowerCaseASCII text) mod 2 = 0)%nat.
Proof.
  intros text. split; [reflexivity |].
  apply (formatResponseContent_even_fences toLowerCaseASCII text).
  - discriminate.
  - vm_compute. reflexivity.
Defined.

(** ** The upstream client: query and formatRequest *)

Section QueryMore.

Import GPT5Client.

Variable create : OpenAI -> ChatParams -> Result ChatCompletion.
Variables (client : t) (startTime : Z).

Implicit Types request : GPT5QueryRequest.

Lemma query_unfold request :
  query create client startTime request
  = match create (openai_sdk client) (chatParams request) with
    | inr response =>
        inr (mkOpenAIResponse
               (str_or
                  (c ← head (default [] (choices response));
                   m ← message c;
                   cm_content m)
                  [])
               (mkUsage
                  (num_or (u ← cc_usage response; cu_prompt_tokens u) (ofZ 0))
                  (num_or (u ← cc_usage response; cu_completion_tokens u) (ofZ 0))
                  (num_or (u ← cc_usage response; cu_total_tokens u) (ofZ 0)))
               (str_or (system_fingerprint response) [])
               (num_or (cc_created response) (ofZ (startTime / 1000))))
    | inl (ThrowError (APIError m st)) =>
        inl (ThrowError
               (GPT5ClientError (js "OpenAI API Error: " ++ m) st
                  (Some (APIError m st))))
    | inl (ThrowError e) =>
        inl (ThrowError
               (GPT5ClientError (js "Unexpected error: " ++ error_message e)
                  None (Some e)))
    | inl (ThrowValue _) =>
        inl (ThrowError
               (GPT5ClientError (js "Unexpected error: Unknown error") None None))
    end.
Proof.
  unfold query, chatParams, try_catch, bind, throw, ret. cbv zeta.
  destruct (create _ _) as [[[| |] |] |]; reflexivity.
Qed.

(** [query] throws exactly when the upstream call does, and what it
    throws is always a [GPT5ClientError] that keeps the error the upstream
    threw. It carries a status code only when that error was an API error
    with that code, and then its message is the API error's message behind
    "OpenAI API Error: ". *)
Theorem query_throws_client_errors request :
  (forall thrown,
     query create client startTime request = inl thrown ->
     exists message statusCode original upstream,
       thrown = ThrowError (GPT5ClientError message statusCode original)
       /\ create (openai_sdk client) (chatParams request) = inl upstream
       /\ original = match upstream with
                     | ThrowError e => Some e
                     | ThrowValue _ => None
                     end
       /\ (forall code, statusCode = Some code ->
             exists m, upstream = ThrowError (APIError m (Some code))
                       /\ message = js "OpenAI API Error: " ++ m))
  /\ (forall formatted,
        query create client startTime request = inr formatted ->
        exists response,
          create (openai_sdk client) (chatParams request) = inr response).
Proof.
  rewrite query_unfold.
  destruct (create (openai_sdk client) (chatParams request))
    as [[[m | m st | m st orig] | v] | response].
  - split; [| discriminate]. intros thrown [= <-].
    eexists _, _, _, _. repeat split. discriminate.
  - split; [| discriminate]. intros thrown [= <-].
    eexists _, _, _, _. repeat split.
    intros code ->. exists m. split; reflexivity.
  - split; [| discriminate]. intros thrown [= <-].
    eexists _, _, _, _. repeat split. discriminate.
  - split; [| discriminate]. intros thrown [= <-].
    eexists _, _, _, _. repeat split. discriminate.
  - split; [discriminate |]. intros formatted _. exists response. reflexivity.
Qed.

End QueryMore.

Lemma query_throws_client_errors_witness :
  exists message original,
    GPT5Client.query failingUpstream testClient 1700000000000
      GPT5Client.testRequest
    = inl (ThrowError (GPT5ClientError message (Some (ofZ 401)) original))
    /\ message = js "OpenAI API Error: 401 Incorrect API key provided".
Proof.
  destruct (proj1 (query_throws_client_errors failingUpstream testClient
                     1700000000000 GPT5Client.testRequest)
              _ query_failingUpstream)
    as (message & statusCode & original & upstream & Hthrown & Hup & _ & Hcode).
  injection Hthrown as <- <- <-.
  eexists _, _. split; reflexivity.
Defined.

Section FormatRequestMore.

Import GPT5Client.

Variable config : ServerConfig.

(** Nothing that [validateRequest] lets through is lost on the way to
    the upstream call: the token limit and the temperature of a validated
    request, when it has them, are forwarded as they are, next to the
    model and one user message. The message is the prompt, or the context
    and the prompt under their two labels; a context that was sanitized
    to the empty string is left out like a missing one. *)
Theorem formatRequest_of_validated (rawRequest : JsVal)
    (request : GPT5QueryRequest) :
  validateRequest config rawRequest = inr request ->
  let openaiRequest := formatRequest request in
  max_output_tokens openaiRequest = max_tokens request
  /\ req_temperature openaiRequest = temperature request
  /\ req_model openaiRequest = model request
  /\ input openaiRequest
     = [ mkInputMessage user
           (match context request with
            | Some (c :: ctx) =>
                js "Context: " ++ (c :: ctx) ++ [LF; LF] ++ js "Request: "
                ++ prompt request
            | _ => prompt request
            end) ].
Proof.
  intros Hok openaiRequest.
  subst openaiRequest. unfold formatRequest. cbv zeta.
  assert (Htok : forall n, max_tokens request = Some n -> num_truthy n = true).
  { intros n. apply (validateRequest_max_tokens_truthy config rawRequest request n Hok). }
  destruct (max_tokens request) as [n |] eqn:Hn.
  - rewrite (Htok n eq_refl).
    destruct (temperature request); simpl; repeat split;
      destruct (context request) as [[| c ctx] |]; reflexivity.
  - destruct (temperature request); simpl; repeat split;
      destruct (context request) as [[| c ctx] |]; reflexivity.
Qed.

End FormatRequestMore.

Lemma formatRequest_of_validated_witness :
  GPT5Client.max_output_tokens (GPT5Client.formatRequest complexRequest)
  = Some (ofZ 1000)
  /\ GPT5Client.req_temperature (GPT5Client.formatRequest complexRequest)
     = Some (Fin (Q2Qc (7 # 10))).
Proof.
  destruct (formatRequest_of_validated testConfig complexRawRequest
              complexRequest validateRequest_complexRequest)
    as (Hmax & Htemp & _).
  split; [exact Hmax | exact Htemp].
Defined.

(** ** The tool handlers of server.ts *)

Section ServerMore.

Import Server.

Variable toLowerCase : jsstring -> jsstring.
Variable parse : GPT5QueryRequest -> Result GPT5QueryRequest.
Variable create :
  GPT5Client.OpenAI -> GPT5Client.ChatParams -> Result GPT5Client.ChatCompletion.
Variable gpt5Client : GPT5Client.t.
Variable clock : Clock.

Local Abbreviation theConfig := (GPT5Client.config gpt5Client).
Local Abbreviation handle :=
  (handleGPT5Query toLowerCase parse create gpt5Client clock).

Lemma createErrorResponse_text (e : JsError) (args : JsVal) (now : number) :
  content (createErrorResponse e args now) = errorText (error_message e).
Proof. reflexivity. Qed.

(** What the handler answers, stage by stage. *)
Lemma handleGPT5Query_unfold (args : JsVal) :
  handle args
  = match validateRequest theConfig args with
    | inl thrown =>
        mkToolResult (errorText (error_message (as_error thrown))) (Some true)
    | inr validated =>
        match parse validated with
        | inl thrown =>
            mkToolResult (errorText (error_message (as_error thrown))) (Some true)
        | inr parsed =>
            match GPT5Client.query create gpt5Client (queryStart clock)
                    (truncateIfNeeded parsed) with
            | inl thrown =>
                mkToolResult (errorText (error_message (as_error thrown)))
                  (Some true)
            | inr response =>
                mkToolResult
                  (formatResponseContent toLowerCase (output_text response))
                  (Some false)
            end
        end
    end.
Proof.
  unfold handleGPT5Query, bind, ret. cbv zeta.
  destruct (validateRequest theConfig args) as [thrown | validated];
    [reflexivity |].
  destruct (parse validated) as [thrown | parsed]; [reflexivity |].
  destruct (GPT5Client.query _ _ _ _) as [thrown | response]; reflexivity.
Qed.

Lemma validateRequest_bad_prompt (rawRequest : JsVal) :
  is_object rawRequest = true ->
  get rawRequest "prompt" = JUndefined
  \/ typeof (get rawRequest "prompt") <> TString
  \/ get rawRequest "prompt" = JString [] ->
  validateRequest theConfig rawRequest
  = inl (ThrowError
           (Error (js "Invalid request: prompt is required and must be a string"))).
Proof.
  intros Hobj Hprompt. unfold validateRequest.
  rewrite (is_object_passes _ Hobj).
  destruct Hprompt as [Habsent | [Htype | Hempty]].
  - rewrite Habsent. reflexivity.
  - destruct (typeof (get rawRequest "prompt")) eqn:Ht;
      try (rewrite orb_true_r; reflexivity).
    contradiction.
  - rewrite Hempty. reflexivity.
Qed.

(** A call with invalid arguments is answered with an error text that
    carries the validation message, flagged as an error, whatever the
    schema check and the upstream would do: neither is reached. An empty
    prompt counts as a missing one. *)
Theorem handleGPT5Query_invalid_arguments (args : JsVal) :
  (is_object args = false ->
   handle args
   = mkToolResult (errorText (js "Invalid request: must be an object"))
       (Some true))
  /\ (is_object args = true ->
      get args "prompt" = JUndefined
      \/ typeof (get args "prompt") <> TString
      \/ get args "prompt" = JString [] ->
      handle args
      = mkToolResult
          (errorText
             (js "Invalid request: prompt is required and must be a string"))
          (Some true)).
Proof.
  split.
  - intros Hnot. rewrite handleGPT5Query_unfold.
    rewrite (validateRequest_not_object theConfig args Hnot). reflexivity.
  - intros Hobj Hprompt. rewrite handleGPT5Query_unfold.
    rewrite (validateRequest_bad_prompt args Hobj Hprompt). reflexivity.
Qed.

(** When the upstream call fails, the user is shown the failure under the
    client's classification: "OpenAI API Error: " and the message for an
    API error, "Unexpected error: " and the message for any other error,
    "Unexpected error: Unknown error" for a thrown value that is no
    error. *)
Theorem handleGPT5Query_upstream_failure (args : JsVal)
    (validated parsed : GPT5QueryRequest) (upstream : Thrown) :
  validateRequest theConfig args = inr validated ->
  parse validated = inr parsed ->
  create (GPT5Client.openai_sdk gpt5Client) (chatParams (truncateIfNeeded parsed))
  = inl upstream ->
  handle args
  = mkToolResult
      (errorText
         match upstream with
         | ThrowError (APIError m _) => js "OpenAI API Error: " ++ m
         | ThrowError e => js "Unexpected error: " ++ error_message e
         | ThrowValue _ => js "Unexpected error: Unknown error"
         end)
      (Some true).
Proof.
  intros Hvalid Hparse Hup.
  rewrite handleGPT5Query_unfold, Hvalid, Hparse, query_unfold, Hup.
  destruct upstream as [[| |] |]; reflexivity.
Qed.

(** The call is answered without the error flag exactly when validation,
    schema check and upstream call all succeed. The text is then the
    formatted text of the first choice, and "No response generated." when
    the completion has no choice at all. *)
Theorem handleGPT5Query_success (args : JsVal) :
  (isError (handle args) = Some false
   <-> exists validated parsed response,
         validateRequest theConfig args = inr validated
         /\ parse validated = inr parsed
         /\ create (GPT5Client.openai_sdk gpt5Client)
              (chatParams (truncateIfNeeded parsed)) = inr response)
  /\ (forall validated parsed response,
        validateRequest theConfig args = inr validated ->
        parse validated = inr parsed ->
        create (GPT5Client.openai_sdk gpt5Client)
          (chatParams (truncateIfNeeded parsed)) = inr response ->
        (GPT5Client.choices response = None
         \/ GPT5Client.choices response = Some []) ->
        handle args = mkToolResult (js "No response generated.") (Some false)).
Proof.
  rewrite handleGPT5Query_unfold. split; [split |].
  - destruct (validateRequest theConfig args) as [thrown | validated];
      [discriminate |].
    destruct (parse validated) as [thrown | parsed] eqn:Hparse; [discriminate |].
    rewrite query_unfold.
    destruct (create (GPT5Client.openai_sdk gpt5Client)
                (chatParams (truncateIfNeeded parsed)))
      as [[[| |] |] | response] eqn:Hup; try discriminate.
    intros _. exists validated, parsed, response.
    split; [reflexivity |]. split; [exact Hparse | exact Hup].
  - intros (validated & parsed & response & -> & -> & Hup).
    rewrite query_unfold, Hup. reflexivity.
  - intros validated parsed response -> -> Hup Hnone.
    rewrite query_unfold, Hup.
    destruct Hnone as [-> | ->]; reflexivity.
Qed.

(** The connection test answers with one of two fixed texts. When the
    upstream call of the probe fails, the text names "Connection test
    failed" as the error: what the upstream actually threw is not shown.
    When it succeeds, the text lists the three models and the time. *)
Theorem handleTestConnection_outcome (startTime : Z) (isoNow : jsstring) :
  (forall thrown,
     create (GPT5Client.openai_sdk gpt5Client) probeParams = inl thrown ->
     handleTestConnection create gpt5Client startTime isoNow
     = mkToolResult connectionFailedText (Some true))
  /\ (forall response,
        create (GPT5Client.openai_sdk gpt5Client) probeParams = inr response ->
        handleTestConnection create gpt5Client startTime isoNow
        = mkToolResult (connectionOkText isoNow) (Some false)).
Proof.
  unfold handleTestConnection, GPT5Client.testConnection, try_catch, bind, ret.
  rewrite query_unfold.
  change (chatParams GPT5Client.testRequest) with probeParams.
  split.
  - intros thrown ->. destruct thrown as [[| |] |]; reflexivity.
  - intros response ->. reflexivity.
Qed.

Lemma callTool_unfold (isoNow name : jsstring) (args : JsVal) :
  callTool toLowerCase parse create gpt5Client clock isoNow name args
  = if bool_decide (name = js "gpt5_query") then handle args
    else if bool_decide (name = js "gpt5_test_connection")
    then handleTestConnection create gpt5Client (queryStart clock) isoNow
    else mkToolResult (errorText (js "Unknown tool: " ++ name)) None.
Proof.
  unfold callTool, ret, throw.
  destruct (bool_decide (name = js "gpt5_query")); [reflexivity |].
  destruct (bool_decide (name = js "gpt5_test_connection")); reflexivity.
Qed.

Lemma handleGPT5Query_flag (args : JsVal) : isError (handle args) <> None.
Proof.
  rewrite handleGPT5Query_unfold.
  destruct (validateRequest theConfig args) as [| validated]; [discriminate |].
  destruct (parse validated) as [| parsed]; [discriminate |].
  destruct (GPT5Client.query _ _ _ _); discriminate.
Qed.

Lemma handleTestConnection_flag (startTime : Z) (isoNow : jsstring) :
  isError (handleTestConnection create gpt5Client startTime isoNow) <> None.
Proof.
  unfold handleTestConnection, bind.
  destruct (GPT5Client.testConnection _ _ _) as [| []]; discriminate.
Qed.

(** A call of a tool that does not exist is answered with "Unknown tool: "
    and the name, without an error flag; the two tools that exist are
    answered by their handlers, which always set the flag. So the flag is
    missing exactly for the unknown names. *)
Theorem callTool_dispatch (isoNow name : jsstring) (args : JsVal) :
  let result :=
    callTool toLowerCase parse create gpt5Client clock isoNow name args in
  (name = js "gpt5_query" -> result = handle args)
  /\ (name = js "gpt5_test_connection" ->
      result = handleTestConnection create gpt5Client (queryStart clock) isoNow)
  /\ (name <> js "gpt5_query" -> name <> js "gpt5_test_connection" ->
      result = mkToolResult (errorText (js "Unknown tool: " ++ name)) None)
  /\ (isError result = None
      <-> name <> js "gpt5_query" /\ name <> js "gpt5_test_connection").
Proof.
  intros result. subst result. rewrite callTool_unfold.
  destruct (decide (name = js "gpt5_query")) as [Hq | Hq].
  - rewrite (bool_decide_eq_true_2 _ Hq).
    split; [reflexivity |]. split.
    { intros Ht. rewrite Ht in Hq. discriminate. }
    split; [contradiction |]. split.
    + intros Hnone. exfalso. exact (handleGPT5Query_flag args Hnone).
    + intros [Hne _]. contradiction.
  - rewrite (bool_decide_eq_false_2 _ Hq).
    split; [contradiction |].
    destruct (decide (name = js "gpt5_test_connection")) as [Ht | Ht].
    + rewrite (bool_decide_eq_true_2 _ Ht).
      split; [reflexivity |]. split; [contradiction |]. split.
      * intros Hnone. exfalso.
        exact (handleTestConnection_flag (queryStart clock) isoNow Hnone).
      * intros [_ Hne]. contradiction.
    + rewrite (bool_decide_eq_false_2 _ Ht).
      split; [contradiction |]. split; [reflexivity |]. split.
      * intros _. split; assumption.
      * reflexivity.
Qed.

End ServerMore.

Lemma handleGPT5Query_invalid_arguments_witness :
  Server.handleGPT5Query toLowerCaseASCII acceptingSchema answeringUpstream
    testClient testClock JNull
  = Server.mkToolResult (errorText (js "Invalid request: must be an object"))
      (Some true)
  /\ Server.handleGPT5Query toLowerCaseASCII acceptingSchema answeringUpstream
       testClient testClock (JObject {[ "model" := JString (js "gpt-5") ]})
     = Server.mkToolResult
         (errorText
            (js "Invalid request: prompt is required and must be a string"))
         (Some true).
Proof.
  split.
  - apply (proj1 (handleGPT5Query_invalid_arguments toLowerCaseASCII
                    acceptingSchema answeringUpstream testClient testClock
                    JNull)).
    reflexivity.
  - apply (proj2 (handleGPT5Query_invalid_arguments toLowerCaseASCII
                    acceptingSchema answeringUpstream testClient testClock
                    (JObject {[ "model" := JString (js "gpt-5") ]}))).
    + reflexivity.
    + left. vm_compute. reflexivity.
Defined.

Lemma handleGPT5Query_upstream_failure_witness :
  Server.handleGPT5Query toLowerCaseASCII acceptingSchema failingUpstream
    testClient testClock complexRawRequest
  = Server.mkToolResult
      (errorText (js "OpenAI API Error: 401 Incorrect API key provided"))
      (Some true).
Proof.
  apply (handleGPT5Query_upstream_failure toLowerCaseASCII acceptingSchema
           failingUpstream testClient testClock complexRawRequest
           complexRequest complexRequest
           (ThrowError (APIError (js "401 Incorrect API key provided")
                          (Some (ofZ 401))))).
  - vm_compute. reflexivity.
  - reflexivity.
  - reflexivity.
Defined.

Lemma handleGPT5Query_success_witness :
  Server.handleGPT5Query toLowerCaseASCII acceptingSchema silentUpstream
    testClient testClock complexRawRequest
  = Server.mkToolResult (js "No response generated.") (Some false).
Proof.
  apply (proj2 (handleGPT5Query_success toLowerCaseASCII acceptingSchema
                  silentUpstream testClient testClock complexRawRequest)
           complexRequest complexRequest
           (GPT5Client.mkChatCompletion (Some []) None None None)).
  - vm_compute. reflexivity.
  - reflexivity.
  - reflexivity.
  - right. reflexivity.
Defined.

Lemma handleTestConnection_outcome_witness :
  Server.handleTestConnection failingUpstream testClient 1700000000000
    (js "2023-11-14T22:13:20.000Z")
  = Server.mkToolResult connectionFailedText (Some true)
  /\ Server.handleTestConnection answeringUpstream testClient 1700000000000
       (js "2023-11-14T22:13:20.000Z")
     = Server.mkToolResult (connectionOkText (js "2023-11-14T22:13:20.000Z"))
         (Some false).
Proof.
  split.
  - eapply (proj1 (handleTestConnection_outcome failingUpstream testClient
                     1700000000000 (js "2023-11-14T22:13:20.000Z"))).
    reflexivity.
  - eapply (proj2 (handleTestConnection_outcome answeringUpstream testClient
                     1700000000000 (js "2023-11-14T22:13:20.000Z"))).
    reflexivity.
Defined.

Lemma callTool_dispatch_witness :
  Server.callTool toLowerCaseASCII acceptingSchema answeringUpstream testClient
    testClock (js "2023-11-14T22:13:20.000Z") (js "gpt5_search") JNull
  = Server.mkToolResult (errorText (js "Unknown tool: gpt5_search")) None.
Proof.
  destruct (callTool_dispatch toLowerCaseASCII acceptingSchema answeringUpstream
              testClient testClock (js "2023-11-14T22:13:20.000Z")
              (js "gpt5_search") JNull) as (_ & _ & Hunknown & _).
  apply Hunknown; vm_compute; discriminate.
Defined.

(** ** config.ts *)

Section ConfigMore.

Import Config.

Lemma num_lt_false (x : number) (q : Qc) :
  num_lt x (Fin q) = false -> x = NaN \/ num_le (Fin q) x = true.
Proof.
  unfold num_lt. destruct x; simpl; auto.
  - intros H. apply negb_false_iff in H. right. exact H.
Qed.

Lemma num_gt_false (x : number) (q : Qc) :
  num_lt (Fin q) x = false -> x = NaN \/ num_le x (Fin q) = true.
Proof.
  unfold num_lt. destruct x; simpl; auto.
  - intros H. apply negb_false_iff in H. right. exact H.
Qed.

Lemma array_includes_In (a : list jsstring) (x : JsVal) :
  array_includes a x = true <-> exists s, x = JString s /\ In s a.
Proof.
  unfold array_includes.
  destruct x as [| | b | n | s | items | props];
    try (split; [discriminate | intros (s' & Habs & _); discriminate]).
  rewrite existsb_exists. split.
  - intros (y & Hin & Heq). apply bool_decide_eq_true in Heq as <-.
    exists y. split; [reflexivity | exact Hin].
  - intros (s' & [= <-] & Hin). exists s.
    split; [exact Hin | apply bool_decide_eq_true; reflexivity].
Qed.

(** What [validateConfiguration] lets through, test by test. *)
Lemma validateConfiguration_accepts_iff (c : LoadedConfig) :
  validateConfiguration c = inr tt
  <-> str_truthy (lc_apiKey c) = true
      /\ startsWith (js "sk-") (lc_apiKey c) = true
      /\ num_lt (lc_timeout c) (ofZ 1000) = false
      /\ truthy (lc_name c) = true
      /\ truthy (lc_version c) = true
      /\ num_lt (lc_maxRetries c) (ofZ 0) = false
      /\ num_lt (ofZ 10) (lc_maxRetries c) = false
      /\ num_lt (lc_retryDelay c) (ofZ 100) = false
      /\ array_includes validLogLevels (lc_level c) = true.
Proof.
  unfold validateConfiguration.
  destruct (str_truthy (lc_apiKey c)); cbn [negb]; cbv iota;
    [| split; [discriminate | intros (H & _); discriminate]].
  destruct (startsWith (js "sk-") (lc_apiKey c)); cbn [negb]; cbv iota;
    [| split; [discriminate | intros (_ & H & _); discriminate]].
  destruct (num_lt (lc_timeout c) (ofZ 1000)); cbv iota;
    [split; [discriminate | intros (_ & _ & H & _); discriminate] |].
  destruct (truthy (lc_name c)); cbn [negb]; cbv iota;
    [| split; [discriminate | intros (_ & _ & _ & H & _); discriminate]].
  destruct (truthy (lc_version c)); cbn [negb]; cbv iota;
    [| split; [discriminate | intros (_ & _ & _ & _ & H & _); discriminate]].
  destruct (num_lt (lc_maxRetries c) (ofZ 0)); cbn [orb]; cbv iota;
    [split; [discriminate | intros (_ & _ & _ & _ & _ & H & _); discriminate] |].
  destruct (num_lt (ofZ 10) (lc_maxRetries c)); cbv iota;
    [split; [discriminate | intros (_ & _ & _ & _ & _ & _ & H & _); discriminate] |].
  destruct (num_lt (lc_retryDelay c) (ofZ 100)); cbv iota;
    [split; [discriminate | intros (_ & _ & _ & _ & _ & _ & _ & H & _); discriminate] |].
  destruct (array_includes validLogLevels (lc_level c)); cbn [negb]; cbv iota;
    [| split; [discriminate | intros (_ & _ & _ & _ & _ & _ & _ & _ & H); discriminate]].
  split; [intros _; repeat split | reflexivity].
Qed.

(** Reading [defaultConfig.section.field] succeeds exactly when the
    section is there, and throws a TypeError otherwise. *)
Lemma nullish_get (d : JsVal) (k : string) :
  nullish d = true -> get d k = JUndefined.
Proof. destruct d; simpl; try discriminate; reflexivity. Qed.

Lemma default_of_inr (cannotRead : JsVal -> string -> jsstring) (d : JsVal)
    (section field : string) (v : JsVal) :
  default_of cannotRead d section field = inr v
  <-> nullish (get d section) = false /\ v = get (get d section) field.
Proof.
  unfold default_of, member, and_then.
  destruct (nullish d) eqn:Hd.
  - rewrite (nullish_get d section Hd). simpl.
    split; [discriminate | intros [H _]; discriminate].
  - destruct (nullish (get d section)).
    + split; [discriminate | intros [H _]; discriminate].
    + split.
      * intros [= <-]. split; reflexivity.
      * intros [_ ->]. reflexivity.
Qed.

Lemma default_of_inl (cannotRead : JsVal -> string -> jsstring) (d : JsVal)
    (section field : string) (r : Raised) :
  default_of cannotRead d section field = inl r ->
  exists base k,
    nullish base = true /\ r = RaisedTypeError (cannotRead base k).
Proof.
  unfold default_of, member, and_then.
  destruct (nullish d) eqn:Hd.
  - intros [= <-]. exists d, section. split; [exact Hd | reflexivity].
  - destruct (nullish (get d section)) eqn:Hs; [| discriminate].
    intros [= <-]. exists (get d section), field.
    split; [exact Hs | reflexivity].
Qed.

Lemma default_of_missing (cannotRead : JsVal -> string -> jsstring) (d : JsVal)
    (section field : string) :
  nullish (get d section) = true ->
  exists base k,
    nullish base = true
    /\ default_of cannotRead d section field
       = inl (RaisedTypeError (cannotRead base k)).
Proof.
  intros Hs.
  destruct (default_of cannotRead d section field) as [r | v] eqn:Hread.
  - apply default_of_inl in Hread as (base & k & Hbase & ->).
    exists base, k. split; [exact Hbase | reflexivity].
  - apply default_of_inr in Hread as [Hpresent _].
    rewrite Hs in Hpresent. discriminate.
Qed.

Lemma env_or_else_unset (env : gmap string jsstring) (name : string)
    (fallback : Attempt JsVal) :
  env !! name = None \/ env !! name = Some [] ->
  env_or_else env name fallback = fallback.
Proof. unfold env_or_else. intros [-> | ->]; reflexivity. Qed.

Lemma env_or_else_inl (env : gmap string jsstring) (name : string)
    (fallback : Attempt JsVal) (r : Raised) :
  env_or_else env name fallback = inl r -> fallback = inl r.
Proof.
  unfold env_or_else.
  destruct (env !! name) as [[| c value] |]; simpl; try discriminate; auto.
Qed.

Lemma env_or_else_inr (env : gmap string jsstring) (name : string)
    (fallback : Attempt JsVal) (v : JsVal) :
  env_or_else env name fallback = inr v ->
  (exists value, env !! name = Some value /\ value <> [] /\ v = JString value)
  \/ ((env !! name = None \/ env !! name = Some []) /\ fallback = inr v).
Proof.
  unfold env_or_else.
  destruct (env !! name) as [[| c value] |]; simpl.
  - intros H. right. split; [right; reflexivity | exact H].
  - intros [= <-]. left. exists (c :: value). repeat split. discriminate.
  - intros H. right. split; [left; reflexivity | exact H].
Qed.

(** A fallback that can be read keeps [||] from throwing. *)
Lemma env_or_else_total (env : gmap string jsstring) (name : string)
    (fallback : Attempt JsVal) (d : JsVal) :
  fallback = inr d -> exists v, env_or_else env name fallback = inr v.
Proof.
  intros ->. unfold env_or_else.
  destruct (env !! name) as [[| c value] |]; simpl; eauto.
Qed.

Lemma env_or_else_truthy (env : gmap string jsstring) (name : string)
    (fallback : Attempt JsVal) (d v : JsVal) :
  fallback = inr d -> truthy d = true ->
  env_or_else env name fallback = inr v -> truthy v = true.
Proof.
  intros -> Hd. unfold env_or_else.
  destruct (env !! name) as [[| c value] |]; simpl; intros [= <-];
    (exact Hd || reflexivity).
Qed.

(** The body of [loadConfiguration] once the key has been found. *)
Ltac load_with_key Hkey :=
  unfold loadConfiguration, getRequiredEnvVar; cbv zeta; rewrite Hkey;
  cbn [from_option negb str_truthy checked and_then default id].

(** The configuration that is assembled before it is validated. *)
Lemma loadConfiguration_inr (parseInt : jsstring -> number)
    (cannotRead : JsVal -> string -> jsstring)
    (env : gmap string jsstring) (defaultsFile : option JsVal)
    (c : LoadedConfig) :
  loadConfiguration parseInt cannotRead env defaultsFile = inr c
  <-> exists key theModel theName theVersion theLevel,
        env !! "OPENAI_API_KEY" = Some key /\ key <> []
        /\ env_or_else env "GPT5_DEFAULT_MODEL"
             (default_of cannotRead (loadDefaultConfig defaultsFile)
                "openai" "defaultModel") = inr theModel
        /\ env_or_else env "SERVER_NAME"
             (default_of cannotRead (loadDefaultConfig defaultsFile)
                "server" "name") = inr theName
        /\ default_of cannotRead (loadDefaultConfig defaultsFile)
             "server" "version" = inr theVersion
        /\ env_or_else env "LOG_LEVEL"
             (default_of cannotRead (loadDefaultConfig defaultsFile)
                "logging" "level") = inr theLevel
        /\ c = mkLoadedConfig key (env !! "OPENAI_BASE_URL") theModel
                 (parseInt (env_or env "OPENAI_TIMEOUT" (js "60000")))
                 theName theVersion
                 (parseInt (env_or env "MAX_RETRIES" (js "3")))
                 (parseInt (env_or env "RETRY_DELAY" (js "1000")))
                 theLevel
                 (bool_decide (env !! "LOG_REQUESTS" = Some (js "true")))
                 (bool_decide (env !! "LOG_RESPONSES" = Some (js "true")))
        /\ validateConfiguration c = inr tt.
Proof.
  split.
  - destruct (env !! "OPENAI_API_KEY") as [[| k key] |] eqn:Hkey.
    + load_with_key Hkey. discriminate.
    + load_with_key Hkey.
      destruct (env_or_else env "GPT5_DEFAULT_MODEL" _) as [r | theModel] eqn:Hm;
        cbn [and_then]; [discriminate |].
      destruct (env_or_else env "SERVER_NAME" _) as [r | theName] eqn:Hn;
        cbn [and_then]; [discriminate |].
      destruct (default_of cannotRead _ "server" "version")
        as [r | theVersion] eqn:Hv; cbn [and_then]; [discriminate |].
      destruct (env_or_else env "LOG_LEVEL" _) as [r | theLevel] eqn:Hl;
        cbn [and_then]; [discriminate |].
      match goal with |- context [validateConfiguration ?built] =>
        set (assembled := built) end.
      destruct (validateConfiguration assembled) as [e | []] eqn:Hvalid;
        cbn [checked and_then]; [discriminate |].
      intros [= <-].
      exists (k :: key), theModel, theName, theVersion, theLevel.
      repeat split; try assumption. discriminate.
    + load_with_key Hkey. discriminate.
  - intros (key & theModel & theName & theVersion & theLevel
            & Hkey & Hne & Hm & Hn & Hv & Hl & -> & Hvalid).
    destruct key as [| k key]; [contradiction |].
    load_with_key Hkey.
    rewrite Hm. cbn [and_then]. rewrite Hn. cbn [and_then].
    rewrite Hv. cbn [and_then]. rewrite Hl. cbn [and_then].
    rewrite Hvalid. reflexivity.
Qed.

Section Load.

Variable parseInt : jsstring -> number.
Variable cannotRead : JsVal -> string -> jsstring.
Variable env : gmap string jsstring.
Variable defaultsFile : option JsVal.

Local Abbreviation load :=
  (loadConfiguration parseInt cannotRead env defaultsFile).

Local Abbreviation defaults := (loadDefaultConfig defaultsFile).

(** Every configuration that [loadConfiguration] returns has the key of
    the environment, which begins with "sk-", a server name and a version
    that are truthy (not the empty string) and one of the four log levels.
    Its three numbers satisfy their bounds or are NaN: the comparisons
    that guard them are all false on NaN, so a value that [parseInt]
    cannot read is let through. *)
Theorem loadConfiguration_invariants (c : LoadedConfig) :
  load = inr c ->
  env !! "OPENAI_API_KEY" = Some (lc_apiKey c)
  /\ startsWith (js "sk-") (lc_apiKey c) = true
  /\ truthy (lc_name c) = true /\ lc_name c <> JString []
  /\ truthy (lc_version c) = true /\ lc_version c <> JString []
  /\ (exists s, lc_level c = JString s
                /\ In s [ js "debug"; js "info"; js "warn"; js "error" ])
  /\ (lc_timeout c = NaN \/ num_le (ofZ 1000) (lc_timeout c) = true)
  /\ (lc_maxRetries c = NaN
      \/ num_le (ofZ 0) (lc_maxRetries c) = true
         /\ num_le (lc_maxRetries c) (ofZ 10) = true)
  /\ (lc_retryDelay c = NaN \/ num_le (ofZ 100) (lc_retryDelay c) = true).
Proof.
  intros Hload.
  apply loadConfiguration_inr in Hload
    as (key & theModel & theName & theVersion & theLevel
        & Hkey & _ & _ & _ & _ & _ & Hc & Hvalid).
  assert (Hk : lc_apiKey c = key) by (rewrite Hc; reflexivity).
  apply validateConfiguration_accepts_iff in Hvalid
    as (_ & Hsk & Htimeout & Hname & Hversion & Hmin & Hmax & Hdelay & Hlevel).
  repeat apply conj.
  - rewrite Hk. exact Hkey.
  - exact Hsk.
  - exact Hname.
  - intros E. rewrite E in Hname. discriminate.
  - exact Hversion.
  - intros E. rewrite E in Hversion. discriminate.
  - apply array_includes_In in Hlevel. exact Hlevel.
  - apply num_lt_false, Htimeout.
  - apply num_lt_false in Hmin. apply num_gt_false in Hmax.
    destruct Hmin as [-> | Hmin]; [left; reflexivity |].
    destruct Hmax as [-> | Hmax]; [left; reflexivity |].
    right. split; assumption.
  - apply num_lt_false, Hdelay.
Qed.


(** Without a key in the environment, or with an empty one, loading fails
    with the message about OPENAI_API_KEY behind the loader's prefix,
    whatever the defaults are: the key is the first thing looked at. With
    a key that does not begin with "sk-" it fails with the message about
    the key's form, provided the defaults have their three sections, so
    that they can be read. *)
Theorem loadConfiguration_key_errors :
  (env !! "OPENAI_API_KEY" = None \/ env !! "OPENAI_API_KEY" = Some [] ->
   load
   = inl (mkConfigurationError
            (js "Failed to load configuration: Required environment variable OPENAI_API_KEY is not set. Please set it in your environment or .env file.")))
  /\ (forall key,
        env !! "OPENAI_API_KEY" = Some key -> key <> [] ->
        startsWith (js "sk-") key = false ->
        nullish (get defaults "openai") = false ->
        nullish (get defaults "server") = false ->
        nullish (get defaults "logging") = false ->
        load
        = inl (mkConfigurationError
                 (js "Failed to load configuration: OpenAI API key appears to be invalid (should start with "
                  ++ [34%N] ++ js "sk-" ++ [34%N] ++ js ")"))).
Proof.
  split.
  - unfold loadConfiguration, getRequiredEnvVar. cbv zeta.
    intros [-> | ->]; reflexivity.
  - intros key Hkey Hne Hsk Hopenai Hserver Hlogging.
    destruct key as [| k key]; [contradiction |].
    destruct (env_or_else_total env "GPT5_DEFAULT_MODEL"
                (default_of cannotRead defaults "openai" "defaultModel") _
                (proj2 (default_of_inr _ _ _ _ _) (conj Hopenai eq_refl)))
      as [theModel Hm].
    destruct (env_or_else_total env "SERVER_NAME"
                (default_of cannotRead defaults "server" "name") _
                (proj2 (default_of_inr _ _ _ _ _) (conj Hserver eq_refl)))
      as [theName Hn].
    destruct (env_or_else_total env "LOG_LEVEL"
                (default_of cannotRead defaults "logging" "level") _
                (proj2 (default_of_inr _ _ _ _ _) (conj Hlogging eq_refl)))
      as [theLevel Hl].
    load_with_key Hkey.
    rewrite Hm. cbn [and_then]. rewrite Hn. cbn [and_then].
    rewrite (proj2 (default_of_inr cannotRead defaults "server" "version" _)
               (conj Hserver eq_refl)).
    cbn [and_then]. rewrite Hl. cbn [and_then].
    unfold validateConfiguration. cbn [lc_apiKey str_truthy negb]. cbv iota.
    rewrite Hsk. reflexivity.
Qed.

(** Defaults that lack a section make loading fail whatever the
    environment holds beyond the key: what is thrown is the engine's
    TypeError for a property read of [undefined] or [null], behind the
    loader's prefix, and validation is never reached. Without a "server"
    section this happens for every environment with a key, since the
    version is always read from it; without an "openai" section it
    happens when GPT5_DEFAULT_MODEL is missing or empty, and the property
    the message names is then "defaultModel". *)
Theorem loadConfiguration_missing_section (key : jsstring) :
  env !! "OPENAI_API_KEY" = Some key -> key <> [] ->
  (nullish (get defaults "server") = true ->
   exists base k,
     nullish base = true
     /\ load
        = inl (mkConfigurationError
                 (js "Failed to load configuration: " ++ cannotRead base k)))
  /\ (nullish defaults = false ->
      nullish (get defaults "openai") = true ->
      env !! "GPT5_DEFAULT_MODEL" = None
      \/ env !! "GPT5_DEFAULT_MODEL" = Some [] ->
      load
      = inl (mkConfigurationError
               (js "Failed to load configuration: "
                ++ cannotRead (get defaults "openai") "defaultModel"))).
Proof.
  intros Hkey Hne.
  destruct key as [| k key]; [contradiction |].
  split.
  - intros Hserver.
    destruct (default_of_missing cannotRead defaults "server" "version" Hserver)
      as (base & field & Hbase & Hversion).
    load_with_key Hkey.
    destruct (env_or_else env "GPT5_DEFAULT_MODEL" _) as [r | theModel] eqn:Hm;
      cbn [and_then].
    { apply env_or_else_inl, default_of_inl in Hm as (b & f & Hb & ->).
      exists b, f. split; [exact Hb | reflexivity]. }
    destruct (env_or_else env "SERVER_NAME" _) as [r | theName] eqn:Hn;
      cbn [and_then].
    { apply env_or_else_inl, default_of_inl in Hn as (b & f & Hb & ->).
      exists b, f. split; [exact Hb | reflexivity]. }
    rewrite Hversion. cbn [and_then].
    exists base, field. split; [exact Hbase | reflexivity].
  - intros Hdefaults Hopenai Hunset.
    load_with_key Hkey.
    rewrite (env_or_else_unset env "GPT5_DEFAULT_MODEL" _ Hunset).
    unfold default_of at 1, member. rewrite Hdefaults. cbn [and_then].
    rewrite Hopenai. reflexivity.
Qed.

(** A configuration that loads is one the client can be built from. Seen
    at its type, it is accepted by the client's constructor, so the
    constructor's own "OpenAI API key is required" cannot occur after a
    successful load. It can be seen at its type when the default model,
    the name and the version are strings, and they are whenever the
    built-in defaults are in use. *)
Theorem loadConfiguration_builds_client (c : LoadedConfig) :
  load = inr c ->
  (forall serverConfig,
     asServerConfig c = Some serverConfig ->
     exists client,
       GPT5Client.constructor serverConfig = inr client
       /\ GPT5Client.config client = serverConfig
       /\ GPT5Client.sdk_apiKey (GPT5Client.openai_sdk client) = lc_apiKey c)
  /\ (typeof (lc_defaultModel c) = TString ->
      typeof (lc_name c) = TString ->
      typeof (lc_version c) = TString ->
      exists serverConfig, asServerConfig c = Some serverConfig)
  /\ (defaultsFile = None ->
      exists serverConfig, asServerConfig c = Some serverConfig).
Proof.
  intros Hload.
  apply loadConfiguration_inr in Hload
    as (key & theModel & theName & theVersion & theLevel
        & Hkey & Hne & Hm & Hn & Hv & Hl & Hc & Hvalid).
  apply validateConfiguration_accepts_iff in Hvalid
    as (_ & _ & _ & _ & _ & _ & _ & _ & Hlevel).
  apply array_includes_In in Hlevel as (lvl & Hlvl & Hin).
  assert (Hlog : exists l, toLogLevel lvl = Some l).
  { simpl in Hin. unfold toLogLevel.
    destruct Hin as [<- | [<- | [<- | [<- | []]]]]; eexists; reflexivity. }
  destruct Hlog as [l Hlog].
  assert (Hstrings :
    typeof (lc_defaultModel c) = TString ->
    typeof (lc_name c) = TString ->
    typeof (lc_version c) = TString ->
    exists serverConfig, asServerConfig c = Some serverConfig).
  { intros H1 H2 H3. unfold asServerConfig. rewrite Hlvl.
    destruct (lc_defaultModel c); try discriminate.
    destruct (lc_name c); try discriminate.
    destruct (lc_version c); try discriminate.
    rewrite Hlog. eexists. reflexivity. }
  split; [| split; [exact Hstrings |]].
  - intros serverConfig Hview. unfold asServerConfig in Hview.
    rewrite Hlvl in Hview.
    destruct (lc_defaultModel c); try discriminate.
    destruct (lc_name c); try discriminate.
    destruct (lc_version c); try discriminate.
    rewrite Hlog in Hview. injection Hview as <-.
    unfold GPT5Client.constructor. simpl.
    assert (Hk : lc_apiKey c = key) by (rewrite Hc; reflexivity).
    rewrite Hk. destruct key as [| k key]; [contradiction |]. simpl.
    eexists. repeat split.
  - intros Hnone. apply Hstrings; rewrite Hc; cbn [lc_defaultModel lc_name lc_version].
    + apply env_or_else_inr in Hm as [(value & _ & _ & ->) | [_ Hm]];
        [reflexivity |].
      apply default_of_inr in Hm as [_ ->]. rewrite Hnone. reflexivity.
    + apply env_or_else_inr in Hn as [(value & _ & _ & ->) | [_ Hn]];
        [reflexivity |].
      apply default_of_inr in Hn as [_ ->]. rewrite Hnone. reflexivity.
    + apply default_of_inr in Hv as [_ ->]. rewrite Hnone. reflexivity.
Qed.

Lemma validateConfiguration_name_passes (c : LoadedConfig) (m : jsstring) :
  truthy (lc_name c) = true ->
  validateConfiguration c = inl (mkConfigurationError m) ->
  m <> js "Server name is required".
Proof.
  intros Hname. unfold validateConfiguration. rewrite Hname. cbn [negb].
  repeat match goal with |- context [if ?b then _ else _] => destruct b end;
    intros [= <-]; intros H; vm_compute in H; discriminate.
Qed.

(** An empty SERVER_NAME is not an error: like a missing one it is
    replaced by the default name. As long as the defaults have a name,
    and the built-in ones do, loading never fails with "Server name is
    required" (the engine's message for a property that cannot be read
    is another one). *)
Theorem loadConfiguration_server_name :
  (forall base k, cannotRead base k <> js "Server name is required") ->
  truthy (get (get defaults "server") "name") = true ->
  load
  <> inl (mkConfigurationError
            (js "Failed to load configuration: Server name is required"))
  /\ (forall c,
        load = inr c ->
        env !! "SERVER_NAME" = None \/ env !! "SERVER_NAME" = Some [] ->
        lc_name c = get (get defaults "server") "name").
Proof.
  intros Hengine Hdefault.
  assert (Hserver : nullish (get defaults "server") = false).
  { destruct (get defaults "server"); try reflexivity;
      simpl in Hdefault; discriminate. }
  assert (Hread : default_of cannotRead defaults "server" "name"
                  = inr (get (get defaults "server") "name")).
  { apply default_of_inr. split; [exact Hserver | reflexivity]. }
  assert (Hsplit : forall r,
    inl (mkConfigurationError
           (js "Failed to load configuration: " ++ raised_message r))
    = (inl (mkConfigurationError
              (js "Failed to load configuration: Server name is required"))
       : Checked LoadedConfig) ->
    raised_message r = js "Server name is required").
  { intros r H.
    change (js "Failed to load configuration: Server name is required")
      with (js "Failed to load configuration: " ++ js "Server name is required")
      in H.
    apply (app_inv_head (js "Failed to load configuration: ")). congruence. }
  assert (Htype : forall r base k,
    r = RaisedTypeError (cannotRead base k) ->
    raised_message r <> js "Server name is required").
  { intros r base k ->. apply Hengine. }
  split.
  - destruct (env !! "OPENAI_API_KEY") as [[| k key] |] eqn:Hkey.
    + load_with_key Hkey. intros H. vm_compute in H. discriminate.
    + load_with_key Hkey.
      destruct (env_or_else env "GPT5_DEFAULT_MODEL" _) as [r | theModel] eqn:Hm;
        cbn [and_then].
      { apply env_or_else_inl, default_of_inl in Hm as (b & f & _ & Hr).
        intros H. apply Hsplit in H. revert H. apply (Htype r b f Hr). }
      destruct (env_or_else env "SERVER_NAME" _) as [r | theName] eqn:Hn;
        cbn [and_then].
      { apply env_or_else_inl, default_of_inl in Hn as (b & f & _ & Hr).
        intros H. apply Hsplit in H. revert H. apply (Htype r b f Hr). }
      destruct (default_of cannotRead _ "server" "version")
        as [r | theVersion] eqn:Hv; cbn [and_then].
      { apply default_of_inl in Hv as (b & f & _ & Hr).
        intros H. apply Hsplit in H. revert H. apply (Htype r b f Hr). }
      destruct (env_or_else env "LOG_LEVEL" _) as [r | theLevel] eqn:Hl;
        cbn [and_then].
      { apply env_or_else_inl, default_of_inl in Hl as (b & f & _ & Hr).
        intros H. apply Hsplit in H. revert H. apply (Htype r b f Hr). }
      match goal with |- context [validateConfiguration ?built] =>
        set (assembled := built) end.
      destruct (validateConfiguration assembled) as [[m] | []] eqn:Hvalid;
        cbn [checked and_then]; [| discriminate].
      intros H. apply Hsplit in H. cbn [raised_message] in H. revert H.
      apply (validateConfiguration_name_passes assembled m); [| exact Hvalid].
      cbn [assembled lc_name].
      apply (env_or_else_truthy env "SERVER_NAME" _ _ theName Hread Hdefault Hn).
    + load_with_key Hkey. intros H. vm_compute in H. discriminate.
  - intros c Hload Hname.
    apply loadConfiguration_inr in Hload
      as (key & theModel & theName & theVersion & theLevel
          & _ & _ & _ & Hn & _ & _ & -> & _).
    cbn [lc_name].
    rewrite (env_or_else_unset env "SERVER_NAME" _ Hname), Hread in Hn.
    injection Hn as <-. reflexivity.
Qed.

End Load.

End ConfigMore.

Lemma loadConfiguration_oddEnv :
  Config.loadConfiguration parseDigits v8CannotRead oddEnv None
  = inr (Config.mkLoadedConfig (js "sk-test-key-1234567890") None
           (JString (js "gpt-5")) NaN (JString (js "gpt5-claude-mcp"))
           (JString (js "1.0.0")) (ofZ 3) (ofZ 1000) (JString (js "info"))
           false false).
Proof. vm_compute. reflexivity. Qed.

Lemma loadConfiguration_keyEnv :
  Config.loadConfiguration parseDigits v8CannotRead keyEnv None
  = inr keyEnvConfig.
Proof. vm_compute. reflexivity. Qed.

(** OPENAI_TIMEOUT=soon: the timeout is NaN and the configuration loads. *)
Lemma loadConfiguration_invariants_witness :
  startsWith (js "sk-") (js "sk-test-key-1234567890") = true
  /\ (exists s, JString (js "info") = JString s
                /\ In s [ js "debug"; js "info"; js "warn"; js "error" ])
  /\ truthy (JString (js "gpt5-claude-mcp")) = true.
Proof.
  destruct (loadConfiguration_invariants parseDigits v8CannotRead oddEnv None _
              loadConfiguration_oddEnv)
    as (_ & Hsk & Hname & _ & _ & _ & Hlevel & _).
  split; [exact Hsk |]. split; [exact Hlevel | exact Hname].
Defined.


Lemma loadConfiguration_key_errors_witness :
  Config.loadConfiguration parseDigits v8CannotRead ∅ None
  = inl (Config.mkConfigurationError
           (js "Failed to load configuration: Required environment variable OPENAI_API_KEY is not set. Please set it in your environment or .env file."))
  /\ Config.loadConfiguration parseDigits v8CannotRead badKeyEnv None
     = inl (Config.mkConfigurationError
              (js "Failed to load configuration: OpenAI API key appears to be invalid (should start with "
               ++ [34%N] ++ js "sk-" ++ [34%N] ++ js ")")).
Proof.
  split.
  - apply (proj1 (loadConfiguration_key_errors parseDigits v8CannotRead ∅ None)).
    left. reflexivity.
  - apply (proj2 (loadConfiguration_key_errors parseDigits v8CannotRead
                    badKeyEnv None)
             (js "invalid-key-format")).
    + vm_compute. reflexivity.
    + discriminate.
    + reflexivity.
    + reflexivity.
    + reflexivity.
    + reflexivity.
Defined.

(** config/default.json holding the empty object, with a key of the wrong
    form and with a good one: the message is the engine's in both. *)
Lemma loadConfiguration_missing_section_witness :
  Config.loadConfiguration parseDigits v8CannotRead badKeyEnv (Some (JObject ∅))
  = inl (Config.mkConfigurationError
           (js "Failed to load configuration: Cannot read properties of undefined (reading 'defaultModel')"))
  /\ Config.loadConfiguration parseDigits v8CannotRead keyEnv (Some (JObject ∅))
     = inl (Config.mkConfigurationError
              (js "Failed to load configuration: Cannot read properties of undefined (reading 'defaultModel')")).
Proof.
  split.
  - apply (proj2 (loadConfiguration_missing_section parseDigits v8CannotRead
                    badKeyEnv (Some (JObject ∅)) (js "invalid-key-format")
                    eq_refl ltac:(discriminate))).
    + reflexivity.
    + reflexivity.
    + left. reflexivity.
  - apply (proj2 (loadConfiguration_missing_section parseDigits v8CannotRead
                    keyEnv (Some (JObject ∅)) (js "sk-test-key-1234567890")
                    eq_refl ltac:(discriminate))).
    + reflexivity.
    + reflexivity.
    + left. reflexivity.
Defined.

Lemma loadConfiguration_builds_client_witness :
  exists serverConfig client,
    asServerConfig keyEnvConfig = Some serverConfig
    /\ GPT5Client.constructor serverConfig = inr client.
Proof.
  destruct (loadConfiguration_builds_client parseDigits v8CannotRead keyEnv None
              _ loadConfiguration_keyEnv)
    as (Hbuilt & _ & Hview).
  destruct (Hview eq_refl) as [serverConfig Hsome].
  destruct (Hbuilt serverConfig Hsome) as (client & Hclient & _).
  exists serverConfig, client. split; [exact Hsome | exact Hclient].
Defined.

(** SERVER_NAME set to the empty string. *)
Lemma loadConfiguration_server_name_witness :
  Config.loadConfiguration parseDigits v8CannotRead oddEnv None
  <> inl (Config.mkConfigurationError
            (js "Failed to load configuration: Server name is required")).
Proof.
  apply (loadConfiguration_server_name parseDigits v8CannotRead oddEnv None).
  - intros base k H. apply (f_equal (hd 0%N)) in H.
    destruct base; vm_compute in H; discriminate.
  - reflexivity.
Defined.

Lemma sanitizeText_fixed_points_witness :
  sanitizeText (js "Test prompt") = js "Test prompt".
Proof.
  apply (proj2 (sanitizeText_fixed_points (js "Test prompt"))).
  repeat split.
  - repeat constructor.
  - vm_compute. discriminate.
Defined.
